(** * alphamind.model.data_preparing: walk-forward panel batching

    A shallow embedding of [src/alphamind/model/data_preparing.py]:
    the frequency-to-horizon map [_map_horizon], the panel assembler
    [prepare_data], the rolling-window batching loop [batch_processing]
    and the orchestrator [fetch_data_package].

    Conventions of the embedding:
    - Python exceptions are values of [exception]; code that can raise
      lives in the [result] monad and the first exception aborts.
    - Python [int] is [Z]; dates ([datetime]) are ordinal numbers in [Z];
      instrument codes are [Z].
    - a [dict] keyed by dates is a [gmap Z _].
    - a numeric cell of a pandas frame is a [cell]: [NaN] or a number;
      finite float values are abstracted as rationals, no float
      arithmetic is performed by the code in scope.
    - collaborators that are not in scope (the SQL engine, the schedule
      maker, [factor_processing]) are parameters. *)

From Stdlib Require Import ZArith QArith List Ascii String Lia.
From Stdlib Require Import DecimalString DecimalN.
From stdpp Require Import base option list gmap strings sorting pretty.

Set Warnings "-clear-no-such-hyp".

Local Open Scope Z_scope.

(** ** Exceptions and the result monad *)

Inductive exception : Type :=
| ValueError (msg : string)
| TypeError (msg : string)
| IndexError (msg : string)
| KeyError (msg : string)
| PeriodError (msg : string)
| EngineError (msg : string)
| ProcessingError (msg : string).

Inductive result (A : Type) : Type :=
| Ok (a : A)
| Raise (e : exception).

Arguments Ok {A} a.
Arguments Raise {A} e.

#[global] Instance result_ret : MRet result := fun A a => Ok a.
#[global] Instance result_bind : MBind result := fun A B f m =>
  match m with
  | Ok a => f a
  | Raise e => Raise e
  end.

#[global] Instance result_fmap : FMap result := fun A B f m =>
  match m with
  | Ok a => Ok (f a)
  | Raise e => Raise e
  end.

Definition is_Ok {A} (r : result A) : Prop := ∃ a, r = Ok a.

(** ** Frequency parser (PyFin [Period] and [TimeUnits]) *)

(** Modelled from the spec: PyFin's [TimeUnits] enumeration is not part of
    the sources; the spec names business days, calendar days, weeks and
    months as the units with a horizon, and "any other unit" as failing.
    [Years] stands for the remaining unit of the library. *)
Inductive TimeUnits : Type := BDays | Days | Weeks | Months | Years.

#[global] Instance TimeUnits_eq_dec : EqDecision TimeUnits.
Proof. solve_decision. Defined.

(** A parsed period: [Period.units p] and [Period.length p] are the
    accessors [units()] and [length()] of the library's class. *)
Module Period.
Record t : Type := make { units : TimeUnits; length : Z }.
End Period.

(** Modelled from the spec: PyFin's [Period] constructor is not part of the
    sources. A frequency string has the form [<n><unit>]: a non-empty run
    of decimal digits followed by one unit letter, in either case
    ([b] business days, [d] days, [w] weeks, [m] months, [y] years). *)
Definition unit_of_ascii (c : ascii) : option TimeUnits :=
  match c with
  | "b" | "B" => Some BDays
  | "d" | "D" => Some Days
  | "w" | "W" => Some Weeks
  | "m" | "M" => Some Months
  | "y" | "Y" => Some Years
  | _ => None
  end%char.

Definition ascii_of_unit (u : TimeUnits) : ascii :=
  match u with
  | BDays => "b"
  | Days => "d"
  | Weeks => "w"
  | Months => "m"
  | Years => "y"
  end%char.

(** Splits a string into everything but its last character, and that
    character. *)
Fixpoint split_last (s : string) : option (string * ascii) :=
  match s with
  | EmptyString => None
  | String c EmptyString => Some (EmptyString, c)
  | String c rest =>
      match split_last rest with
      | Some (body, l) => Some (String c body, l)
      | None => None
      end
  end.

Definition count_of_string (s : string) : option Z :=
  match s with
  | EmptyString => None
  | _ => (fun d => Z.of_N (N.of_uint d)) <$> NilEmpty.uint_of_string s
  end.

Definition string_of_count (n : N) : string :=
  NilEmpty.string_of_uint (N.to_uint n).

Definition Period_parse (frequency : string) : option Period.t :=
  match split_last frequency with
  | Some (digits, c) =>
      match count_of_string digits, unit_of_ascii c with
      | Some n, Some u => Some (Period.make u n)
      | _, _ => None
      end
  | None => None
  end.

(** The frequency string built from a count and a unit. *)
Definition frequency_string (n : N) (u : TimeUnits) : string :=
  (string_of_count n ++ String (ascii_of_unit u) EmptyString)%string.

(** [_map_horizon], after the period has been parsed (lines 26-35). *)
Definition horizon_of_period (frequency : string) (parsed_period : Period.t)
  : result Z :=
  let unit := Period.units parsed_period in
  let length := Period.length parsed_period in
  if bool_decide (unit = BDays) || bool_decide (unit = Days) then
    Ok (length - 1)
  else if bool_decide (unit = Weeks) then
    Ok (5 * length - 1)
  else if bool_decide (unit = Months) then
    Ok (22 * length - 1)
  else
    Raise (ValueError (frequency ++ " is an unrecognized frequency rule")).

Definition _map_horizon (frequency : string) : result Z :=
  match Period_parse frequency with
  | Some parsed_period => horizon_of_period frequency parsed_period
  | None => Raise (PeriodError frequency)
  end.

(** The units for which [_map_horizon] has a branch. *)
Definition recognized (u : TimeUnits) : Prop :=
  u = BDays ∨ u = Days ∨ u = Weeks ∨ u = Months.

(** ** Python and numpy primitives used by the batching loop *)

(** [l[:stop]]: a negative stop counts from the end, and the bounds are
    clipped to the list. *)
Definition py_slice_to {A} (l : list A) (stop : Z) : list A :=
  let n := Z.of_nat (length l) in
  let s := if stop <? 0 then Z.max 0 (stop + n) else Z.min stop n in
  take (Z.to_nat s) l.

(** [l[k]]: a negative index counts from the end; out of range raises. *)
Definition py_index {A} (l : list A) (k : Z) : result A :=
  let n := Z.of_nat (length l) in
  let k' := if k <? 0 then k + n else k in
  if (k' <? 0) || (n <=? k') then Raise (IndexError "index out of bounds")
  else
    match l !! Z.to_nat k' with
    | Some a => Ok a
    | None => Raise (IndexError "index out of bounds")
    end.

(** The rows of [values] at the positions where [index] is [true]. *)
Fixpoint select {A} (index : list bool) (values : list A) : list A :=
  match index, values with
  | b :: index', v :: values' =>
      if b then v :: select index' values' else select index' values'
  | _, _ => []
  end.

(** [values[index]] for a boolean array [index]: the two must have the
    same number of rows. *)
Definition mask_index {A} (values : list A) (index : list bool)
  : result (list A) :=
  if bool_decide (length index = length values) then Ok (select index values)
  else Raise (IndexError "boolean index did not match indexed array").

(** [for i, a in enumerate(l)] with a loop state and exceptions; [i] is
    the index of the head of [l]. *)
Fixpoint for_enumerate {A St} (body : St → nat → A → result St)
    (i : nat) (l : list A) (s : St) : result St :=
  match l with
  | [] => Ok s
  | a :: l' => s' ← body s i a; for_enumerate body (S i) l' s'
  end.

(** The boolean arrays of lines 89, 107 and 120. *)
Definition train_index (start end_ : Z) (group_label : list Z) : list bool :=
  map (λ d, (start <=? d) && (d <? end_)) group_label.
Definition predict_index (start end_ : Z) (group_label : list Z) : list bool :=
  map (λ d, (start <? d) && (d <=? end_)) group_label.
Definition label_is (end_ : Z) (sub_dates : list Z) : list bool :=
  map (λ d, d =? end_) sub_dates.

(** ** The walk-forward batching engine (lines 74-130) *)

Section batch_processing.
(** Rows of the numeric arrays, rows of the risk-exposure array, and the
    opaque preprocessing step lists. *)
Context {row risk_row process : Type}.

(** The four bucket dictionaries that the function returns. *)
Record buckets : Type := Buckets {
  train_x_buckets : gmap Z (list row);
  train_y_buckets : gmap Z (list row);
  predict_x_buckets : gmap Z (list row);
  predict_y_buckets : gmap Z (list row)
}.

(** The preprocessing collaborator [alphamind.data.processing]:
    [factor_processing raw pre_process risk_factors post_process]. *)
Variable factor_processing :
  list row → process → option (list risk_row) → process → result (list row).

Variables (x_values y_values : list row).
Variables (groups group_label : list Z).
Variable batch : Z.
Variable risk_exp : option (list risk_row).
Variables (pre_process post_process : process).

Definition slice_risk (index : list bool) : result (option (list risk_row)) :=
  match risk_exp with
  | Some r => this ← mask_index r index; Ok (Some this)
  | None => Ok None
  end.

(** One iteration of the loop, lines 88-128. *)
Definition window (acc : buckets) (i : nat) (start : Z) : result buckets :=
  end_ ← py_index groups (Z.of_nat i + batch);
  let index := train_index start end_ group_label in
  this_raw_x ← mask_index x_values index;
  this_raw_y ← mask_index y_values index;
  this_risk_exp ← slice_risk index;
  tx ← factor_processing this_raw_x pre_process this_risk_exp post_process;
  let train_x := <[end_ := tx]> (train_x_buckets acc) in
  ty ← factor_processing this_raw_y pre_process this_risk_exp post_process;
  let train_y := <[end_ := ty]> (train_y_buckets acc) in
  let index := predict_index start end_ group_label in
  sub_dates ← mask_index group_label index;
  this_raw_x ← mask_index x_values index;
  this_risk_exp ← slice_risk index;
  ne_x ← factor_processing this_raw_x pre_process this_risk_exp post_process;
  px ← mask_index ne_x (label_is end_ sub_dates);
  let predict_x := <[end_ := px]> (predict_x_buckets acc) in
  this_raw_y ← mask_index y_values index;
  if 0 <? Z.of_nat (length this_raw_y) then
    ne_y ← factor_processing this_raw_y pre_process this_risk_exp post_process;
    py ← mask_index ne_y (label_is end_ sub_dates);
    Ok (Buckets train_x train_y predict_x
          (<[end_ := py]> (predict_y_buckets acc)))
  else
    Ok (Buckets train_x train_y predict_x (predict_y_buckets acc)).

Definition batch_processing : result buckets :=
  for_enumerate window 0 (py_slice_to groups (- batch))
    (Buckets ∅ ∅ ∅ ∅).

(** *** The loop, seen as a list of stores

    What one iteration stores: its key and its buckets, the predict
    target bucket only when line 123 lets it through. [window] is
    [window_entry] followed by [store]. *)
Record entry : Type := Entry {
  entry_end : Z;
  entry_train_x : list row;
  entry_train_y : list row;
  entry_predict_x : list row;
  entry_predict_y : option (list row)
}.

Definition store (acc : buckets) (e : entry) : buckets :=
  Buckets (<[entry_end e := entry_train_x e]> (train_x_buckets acc))
          (<[entry_end e := entry_train_y e]> (train_y_buckets acc))
          (<[entry_end e := entry_predict_x e]> (predict_x_buckets acc))
          (match entry_predict_y e with
           | Some py => <[entry_end e := py]> (predict_y_buckets acc)
           | None => predict_y_buckets acc
           end).

Definition window_entry (i : nat) (start : Z) : result entry :=
  end_ ← py_index groups (Z.of_nat i + batch);
  let index := train_index start end_ group_label in
  this_raw_x ← mask_index x_values index;
  this_raw_y ← mask_index y_values index;
  this_risk_exp ← slice_risk index;
  tx ← factor_processing this_raw_x pre_process this_risk_exp post_process;
  ty ← factor_processing this_raw_y pre_process this_risk_exp post_process;
  let index := predict_index start end_ group_label in
  sub_dates ← mask_index group_label index;
  this_raw_x ← mask_index x_values index;
  this_risk_exp ← slice_risk index;
  ne_x ← factor_processing this_raw_x pre_process this_risk_exp post_process;
  px ← mask_index ne_x (label_is end_ sub_dates);
  this_raw_y ← mask_index y_values index;
  if 0 <? Z.of_nat (length this_raw_y) then
    ne_y ← factor_processing this_raw_y pre_process this_risk_exp post_process;
    py ← mask_index ne_y (label_is end_ sub_dates);
    Ok (Entry end_ tx ty px (Some py))
  else
    Ok (Entry end_ tx ty px None).

Fixpoint entries_from (i : nat) (l : list Z) : result (list entry) :=
  match l with
  | [] => Ok []
  | start :: l' =>
      e ← window_entry i start;
      es ← entries_from (S i) l';
      Ok (e :: es)
  end.

(** *** Preconditions of the engine

    The arrays are positionally aligned with the label vector, and the
    preprocessing collaborator returns one row per input row. *)
Definition aligned : Prop :=
  length x_values = length group_label ∧
  length y_values = length group_label ∧
  ∀ r, risk_exp = Some r → length r = length group_label.

Definition preserves_rows : Prop :=
  ∀ raw risk, ∃ out,
    factor_processing raw pre_process risk post_process = Ok out ∧
    length out = length raw.

(** What the iteration for the window from [start] to [end_] stores. *)
Definition entry_spec (start end_ : Z) (e : entry) : Prop :=
  let tidx := train_index start end_ group_label in
  let pidx := predict_index start end_ group_label in
  let at_end := label_is end_ (select pidx group_label) in
  entry_end e = end_ ∧
  (∃ risk,
     slice_risk tidx = Ok risk ∧
     factor_processing (select tidx x_values) pre_process risk post_process
       = Ok (entry_train_x e) ∧
     factor_processing (select tidx y_values) pre_process risk post_process
       = Ok (entry_train_y e)) ∧
  (∃ risk ne_x,
     slice_risk pidx = Ok risk ∧
     factor_processing (select pidx x_values) pre_process risk post_process
       = Ok ne_x ∧
     length ne_x = length (select pidx group_label) ∧
     entry_predict_x e = select at_end ne_x ∧
     match entry_predict_y e with
     | None => select pidx y_values = []
     | Some py =>
         select pidx y_values ≠ [] ∧
         ∃ ne_y,
           factor_processing (select pidx y_values) pre_process risk
             post_process = Ok ne_y ∧
           length ne_y = length (select pidx group_label) ∧
           py = select at_end ne_y
     end).
End batch_processing.

Arguments buckets : clear implicits.
Arguments entry : clear implicits.

(** Identity preprocessing: the rows come back unchanged. *)
Definition identity_processing {row : Type} (raw : list row) (pre : unit)
    (risk : option (list row)) (post : unit) : result (list row) :=
  Ok raw.

(** The rows of [values] whose label, at the same position of [labels],
    satisfies [P]. *)
Definition rows_labelled {A} (P : Z → Prop) `{!∀ d, Decision (P d)}
    (labels : list Z) (values : list A) : list A :=
  (filter (λ r, P r.1) (zip labels values)).*2.

(** ** Frames (pandas) *)

(** A numeric cell: a missing value or a number. *)
Inductive cell : Type := NaN | Num (v : Q).

Definition isna (c : cell) : bool :=
  match c with NaN => true | Num _ => false end.

(** [.astype(float)] on one cell: the numeric cells of the frames are
    float64 values already, written as the rationals they denote, and the
    conversion keeps them. *)
Definition astype_float (c : cell) : cell := c.

(** [c.fillna(v)] on one cell. *)
Definition fillna (v : Q) (c : cell) : cell :=
  match c with NaN => Num v | Num _ => c end.

(** The join key of every panel: ([trade_date], [code]). *)
Definition key : Type := Z * Z.
Definition trade_date (k : key) : Z := k.1.
Definition code (k : key) : Z := k.2.

(** A frame: its rows in order, each with its key and its other columns. *)
Definition frame (A : Type) : Type := list (key * A).

(** The columns of the engine's panels besides the key. *)
Module Factor.
Record t : Type := make { isOpen : option bool; values : list cell }.
Definition hasna (r : t) : bool :=
  bool_decide (isOpen r = None) || existsb isna (values r).
End Factor.

Module Industry.
Record t : Type := make { industry_code : option Z; industry : option string }.
End Industry.

(** The rows of [df] at line 67, and of the feature frame (without [dx]). *)
Module Panel.
Record t : Type := make {
  dx : cell;
  weight : cell;
  isOpen : option bool;
  industry_code : option Z;
  industry : option string;
  factors : list cell
}.
Definition with_weight (w : cell) (r : t) : t :=
  make (dx r) w (isOpen r) (industry_code r) (industry r) (factors r).
End Panel.

Module Feature.
Record t : Type := make {
  weight : cell;
  isOpen : option bool;
  industry_code : option Z;
  industry : option string;
  factors : list cell
}.
End Feature.

Module Settlement.
Record t : Type := make {
  dx : cell;
  weight : cell;
  industry : option string;
  industry_code : option Z;
  isOpen : option bool;
  risk : list (string * cell)
}.
End Settlement.

(** [pd.merge(left, right, on=['trade_date', 'code'])]: one output row per
    pair of rows with the same key, in the order of [left]. *)
Definition merge {A B} (left : frame A) (right : frame B) : frame (A * B) :=
  '(k, a) ← left;
  '(k', b) ← right;
  if bool_decide (k = k') then [(k, (a, b))] else [].

(** [pd.merge(left, right, on=[...], how='left')]: a row of [left] without
    a partner is kept, its right columns missing. *)
Definition merge_left {A B} (left : frame A) (right : frame B)
  : frame (A * option B) :=
  '(k, a) ← left;
  match filter (λ r, r.1 = k) right with
  | [] => [(k, (a, None))]
  | partners => (λ r, (k, (a, Some r.2))) <$> partners
  end.

(** [df.dropna()] for a predicate telling which rows have a missing cell. *)
Definition dropna {A} (hasna : A → bool) (df : frame A) : frame A :=
  filter (λ r, hasna r.2 = false) df.

(** [df.sort_values(['trade_date', 'code'])]. *)
Definition key_le (k1 k2 : key) : Prop :=
  trade_date k1 < trade_date k2 ∨
  (trade_date k1 = trade_date k2 ∧ code k1 <= code k2).

#[global] Instance key_le_dec k1 k2 : Decision (key_le k1 k2).
Proof. unfold key_le. apply _. Defined.

(** The sort is stable: rows with the same key keep the order they had.
    [insert_row r df] puts [r] in front of the first row of [df] whose key
    is not below the key of [r]. *)
Fixpoint insert_row {A} (r : key * A) (df : frame A) : frame A :=
  match df with
  | [] => [r]
  | x :: df' =>
      if decide (key_le r.1 x.1) then r :: x :: df'
      else x :: insert_row r df'
  end.

Definition sort_values {A} (df : frame A) : frame A :=
  foldr insert_row [] df.

(** [np.unique]: the distinct values, increasing. *)
Definition np_unique (l : list Z) : list Z :=
  merge_sort Z.le (remove_dups l).

(** ** The panel assembler (lines 38-71) *)

(** [Transformer]: only the resolved factor names are used here. *)
Record Transformer : Type := { names : list string }.

(** The data source. Each panel comes back as a frame, or the call
    raises. *)
Record SqlEngine {Universe : Type} : Type := {
  fetch_factor_range :
    Universe → Transformer → list Z → result (frame Factor.t);
  fetch_dx_return_range : Universe → list Z → Z → result (frame cell);
  fetch_industry_range : Universe → list Z → result (frame Industry.t);
  fetch_benchmark_range : Z → list Z → result (frame cell);
  fetch_risk_model_range :
    Universe → list Z → string → result (frame (list (string * cell)))
}.
Arguments SqlEngine : clear implicits.

(** The row of [df] built by the three merges of lines 65-67. *)
Definition panel_row
    (r : key * (((Factor.t * cell) * option cell) * Industry.t))
  : key * Panel.t :=
  let '(k, (((f, dx), w), ind)) := r in
  (k, Panel.make dx (default NaN w) (Factor.isOpen f)
        (Industry.industry_code ind) (Industry.industry ind)
        (Factor.values f)).

(** Lines 65-71: the joins, the fill of the missing weights, and the
    two frames that [prepare_data] returns, [df[['trade_date', 'code',
    'dx']]] and the feature frame. *)
Definition assemble (factor_df : frame Factor.t) (return_df : frame cell)
    (industry_df : frame Industry.t) (benchmark_df : frame cell)
  : frame cell * frame Feature.t :=
  let df := dropna (λ r, Factor.hasna r.1 || isna r.2)
              (merge factor_df return_df) in
  let df := merge_left df benchmark_df in
  let df := panel_row <$> merge df industry_df in
  let df := (λ r, (r.1, Panel.with_weight (fillna 0 (Panel.weight r.2)) r.2))
              <$> df in
  ((λ r, (r.1, Panel.dx r.2)) <$> df,
   (λ r, (r.1, Feature.make (Panel.weight r.2) (Panel.isOpen r.2)
                 (Panel.industry_code r.2) (Panel.industry r.2)
                 (Panel.factors r.2))) <$> df).

Section pipeline.
Context {Universe Factors process : Type}.

(** PyFin's schedule maker and calendar arithmetic, and the constructor
    of [Transformer]; the calendar and the date rule are the constants of
    the source. [advanceDateByCalendar] stands for the call followed by
    [strftime]. *)
Variable makeSchedule : string → string → string → result (list Z).
Variable advanceDateByCalendar : string → string → string → result string.
Variable new_Transformer : Factors → Transformer.

Variable factor_processing :
  list (list cell) → process → option (list (list cell)) → process →
  result (list (list cell)).

Definition prepare_data (engine : SqlEngine Universe)
    (factors : Transformer + Factors)
    (start_date end_date frequency : string) (universe : Universe)
    (benchmark warm_start : Z)
  : result (list Z * frame cell * frame Feature.t) :=
  start_date ←
    (if 0 <? warm_start then
       advanceDateByCalendar "china.sse" start_date
         (pretty (- warm_start) +:+ "b")
     else Ok start_date);
  dates ← makeSchedule start_date end_date frequency;
  horizon ← _map_horizon frequency;
  let transformer :=
    match factors with
    | inl t => t
    | inr fs => new_Transformer fs
    end in
  factor_df ← sort_values <$> fetch_factor_range engine universe transformer dates;
  return_df ← fetch_dx_return_range engine universe dates horizon;
  industry_df ← fetch_industry_range engine universe dates;
  benchmark_df ← fetch_benchmark_range engine benchmark dates;
  let '(target, features) :=
    assemble factor_df return_df industry_df benchmark_df in
  Ok (dates, target, features).

(** ** The orchestrator (lines 133-205) *)

Record package : Type := {
  x_names : list string;
  settlement : frame Settlement.t;
  train : gmap Z (list (list cell)) * gmap Z (list (list cell));
  predict : gmap Z (list (list cell)) * gmap Z (list (list cell))
}.

(** Python truthiness of an optional list. *)
Definition truthy {A} (o : option (list A)) : bool :=
  match o with
  | Some (_ :: _) => true
  | _ => false
  end.

(** [row[name]] for one column name out of a list of named cells. *)
Definition named_cell (cols : list (string * cell)) (name : string)
  : result cell :=
  match list_find (λ c, c.1 = name) cols with
  | Some (_, c) => Ok c.2
  | None => Raise (KeyError name)
  end.

(** [train_x[name]] on a row of the merged frame: a factor column, or one
    of the risk columns. *)
Definition train_x_cell (transformer : Transformer)
    (r : Feature.t * list (string * cell)) (name : string) : result cell :=
  match list_find (λ n, n = name) (names transformer) with
  | Some (i, _) =>
      match Feature.factors r.1 !! i with
      | Some c => Ok c
      | None => Raise (KeyError name)
      end
  | None => named_cell r.2 name
  end.

(** [return_df[col] = train_x[col]]: the two frames carry a range index,
    so the assignment is by position, and a position that [train_x] lacks
    gets a missing value. *)
Definition settle (return_df : frame cell)
    (train_x : frame (Feature.t * list (string * cell)))
  : frame Settlement.t :=
  imap (λ i r,
    let f := (λ x : key * (Feature.t * list (string * cell)), x.2.1) <$> train_x !! i in
    (r.1, Settlement.make r.2
            (default NaN (Feature.weight <$> f))
            (f ≫= Feature.industry)
            (f ≫= Feature.industry_code)
            (f ≫= Feature.isOpen)
            [])) return_df.

(** [return_df.loc[:, name] = risk_exp[:, i]]: the column must have one
    value per row. *)
Definition set_risk_column (risk_exp : option (list (list cell)))
    (return_df : frame Settlement.t) (i : nat) (name : string)
  : result (frame Settlement.t) :=
  match risk_exp with
  | None => Raise (TypeError "'NoneType' object is not subscriptable")
  | Some rows =>
      column ← mapM (λ row : list cell,
                  match row !! i with
                  | Some c => Ok c
                  | None => Raise (IndexError "index out of bounds")
                  end) rows;
      if bool_decide (length column = length return_df) then
        Ok (zip_with (λ (r : key * Settlement.t) c,
              (r.1, Settlement.make (Settlement.dx r.2) (Settlement.weight r.2)
                      (Settlement.industry r.2) (Settlement.industry_code r.2)
                      (Settlement.isOpen r.2)
                      (Settlement.risk r.2 ++ [(name, c)])))
              return_df column)
      else Raise (ValueError "Length of values does not match length of index")
  end.

(** Lines 158-175: the arrays handed to the batching engine, with the
    frames they are cut from. *)
Record loaded : Type := Loaded {
  risk_exp : option (list (list cell));
  train_x : frame (Feature.t * list (string * cell));
  train_y : frame cell;
  x_values : list (list cell);
  y_values : list (list cell)
}.

Definition load_arrays (engine : SqlEngine Universe)
    (transformer : Transformer) (dates : list Z)
    (return_df : frame cell) (factor_df : frame Feature.t)
    (universe : Universe) (neutralized_risk : option (list string))
    (risk_model : string) : result (frame cell * loaded) :=
  if truthy neutralized_risk then
    let neutralized_risk := default [] neutralized_risk in
    risk_df ← fetch_risk_model_range engine universe dates risk_model;
    let used_neutralized_risk :=
      remove_dups (filter (λ n, n ∉ names transformer) neutralized_risk) in
    risk_df ← mapM (λ r : key * list (string * cell),
                 cols ← mapM (λ n, c ← named_cell r.2 n; Ok (n, c))
                           used_neutralized_risk;
                 Ok (r.1, cols)) risk_df;
    let risk_df := dropna (existsb (λ c : string * cell, isna c.2)) risk_df in
    let train_x := merge factor_df risk_df in
    let return_df := (λ r, (r.1, r.2.1)) <$> merge return_df risk_df in
    let train_y := return_df in
    risk_exp ← mapM (λ r : key * (Feature.t * list (string * cell)),
                  mapM (train_x_cell transformer r.2) neutralized_risk) train_x;
    let risk_exp :=
      (λ row : list cell, astype_float <$> row) <$> risk_exp in
    let x_values :=
      (λ r, astype_float <$> Feature.factors r.2.1) <$> train_x in
    let y_values := (λ r, [r.2]) <$> train_y in
    Ok (return_df, Loaded (Some risk_exp) train_x train_y x_values y_values)
  else
    let train_x := (λ r, (r.1, (r.2, []))) <$> factor_df in
    let train_y := return_df in
    let x_values :=
      (λ r, astype_float <$> Feature.factors r.2.1) <$> train_x in
    let y_values := (λ r, [r.2]) <$> train_y in
    Ok (return_df, Loaded None train_x train_y x_values y_values).

(** Lines 148-185: everything between the two first log lines. *)
Definition load_package (engine : SqlEngine Universe)
    (alpha_factors : Factors) (start_date end_date frequency : string)
    (universe : Universe) (benchmark warm_start : Z)
    (neutralized_risk : option (list string)) (risk_model : string)
  : result (Transformer * frame Settlement.t * loaded * list Z * list Z) :=
  let transformer := new_Transformer alpha_factors in
  '(dates, return_df, factor_df) ←
    prepare_data engine (inl transformer) start_date end_date frequency
      universe benchmark warm_start;
  '(return_df, arrays) ←
    load_arrays engine transformer dates return_df factor_df universe
      neutralized_risk risk_model;
  let date_label := (λ r : key * Feature.t, trade_date r.1) <$> factor_df in
  let dates := np_unique date_label in
  let return_df := settle return_df (train_x arrays) in
  return_df ←
    match neutralized_risk with
    | None => Raise (TypeError "'NoneType' object is not iterable")
    | Some risk_names =>
        for_enumerate (set_risk_column (risk_exp arrays)) 0 risk_names return_df
    end;
  Ok (transformer, return_df, arrays, dates, date_label).

(** The result is the log written to [alpha_logger] and the package, or
    the exception that ended the call. *)
Definition fetch_data_package (engine : SqlEngine Universe)
    (alpha_factors : Factors) (start_date end_date frequency : string)
    (universe : Universe) (benchmark warm_start batch : Z)
    (neutralized_risk : option (list string)) (risk_model : string)
    (pre_process post_process : process)
  : list string * result package :=
  let log := ["Starting data package fetching ..."] in
  match load_package engine alpha_factors start_date end_date frequency
          universe benchmark warm_start neutralized_risk risk_model with
  | Raise e => (log, Raise e)
  | Ok (transformer, return_df, arrays, dates, date_label) =>
      let log := log ++ ["Loading data is finished"] in
      match batch_processing factor_processing (x_values arrays)
              (y_values arrays) dates date_label batch (risk_exp arrays)
              pre_process post_process with
      | Raise e => (log, Raise e)
      | Ok b =>
          (log ++ ["Data processing is finished"],
           Ok {| x_names := names transformer;
                 settlement := return_df;
                 train := (train_x_buckets b, train_y_buckets b);
                 predict := (predict_x_buckets b, predict_y_buckets b) |})
      end
  end.
End pipeline.

(** ** A small scenario

    Four schedule dates with one row each, identity preprocessing, no
    risk exposures; and a data source with two dates and two
    instruments. *)
Module Scenario.
Definition dates : list Z := [1; 2; 3; 4].
Definition features : list Z := [1; 2; 3; 4].
Definition targets : list Z := [10; 20; 30; 40].

Definition run (x_values y_values : list Z) (groups group_label : list Z)
    (batch : Z) : result (buckets Z) :=
  batch_processing identity_processing x_values y_values groups group_label
    batch None () ().

Definition factor_panel : frame Factor.t :=
  [((1, 600000), Factor.make (Some true) [Num 0.5]);
   ((1, 600001), Factor.make (Some true) [Num 1.5]);
   ((2, 600000), Factor.make (Some true) [Num 0.7]);
   ((2, 600001), Factor.make (Some true) [Num 1.7])].
Definition return_panel : frame cell :=
  [((1, 600000), Num 0.01); ((2, 600000), Num 0.02);
   ((2, 600001), Num 0.03)].
Definition industry_panel : frame Industry.t :=
  [((1, 600000), Industry.make (Some 1) (Some "bank"));
   ((1, 600001), Industry.make (Some 2) (Some "steel"));
   ((2, 600000), Industry.make (Some 1) (Some "bank"));
   ((2, 600001), Industry.make (Some 2) (Some "steel"))].
Definition benchmark_panel : frame cell :=
  [((1, 600000), Num 0.25); ((2, 600000), Num 0.25)].

Definition engine : SqlEngine unit := {|
  fetch_factor_range := λ _ _ _, Ok factor_panel;
  fetch_dx_return_range := λ _ _ _, Ok return_panel;
  fetch_industry_range := λ _ _, Ok industry_panel;
  fetch_benchmark_range := λ _ _, Ok benchmark_panel;
  fetch_risk_model_range := λ _ _ _, Raise (EngineError "no risk model")
|}.

Definition makeSchedule (start_date end_date frequency : string)
  : result (list Z) := Ok [1; 2].
Definition advanceDateByCalendar (calendar start_date period : string)
  : result string := Ok start_date.
Definition new_Transformer (factors : unit) : Transformer :=
  {| names := ["EPS"] |}.
Definition factor_processing (raw : list (list cell)) (pre : unit)
    (risk : option (list (list cell))) (post : unit)
  : result (list (list cell)) := Ok raw.
End Scenario.

(** * Further definitions *)

(** Where an exception of the batching engine can come from: numpy's
    indexing, or the preprocessing collaborator. *)
Definition raised_by_numpy_or_processing {row risk_row process : Type}
    (factor_processing :
       list row → process → option (list risk_row) → process →
       result (list row))
    (pre_process post_process : process) (e : exception) : Prop :=
  (∃ msg, e = IndexError msg) ∨
  (∃ raw risk, factor_processing raw pre_process risk post_process = Raise e).

(** The frame [df] of [prepare_data] after line 68, before the two column
    selections of lines 70-71; [assemble] returns its projections. *)
Definition panel_frame (factor_df : frame Factor.t) (return_df : frame cell)
    (industry_df : frame Industry.t) (benchmark_df : frame cell)
  : frame Panel.t :=
  let df := dropna (λ r, Factor.hasna r.1 || isna r.2)
              (merge factor_df return_df) in
  let df := merge_left df benchmark_df in
  let df := panel_row <$> merge df industry_df in
  (λ r, (r.1, Panel.with_weight (fillna 0 (Panel.weight r.2)) r.2)) <$> df.

Definition target_row (r : key * Panel.t) : key * cell :=
  (r.1, Panel.dx r.2).

Definition feature_row (r : key * Panel.t) : key * Feature.t :=
  (r.1, Feature.make (Panel.weight r.2) (Panel.isOpen r.2)
          (Panel.industry_code r.2) (Panel.industry r.2) (Panel.factors r.2)).

(** The label vector of line 177 and the arrays of lines 171-175, the
    branch without risk model. *)
Definition date_labels (factor_df : frame Feature.t) : list Z :=
  (λ r, trade_date r.1) <$> factor_df.

Definition no_risk_x_values (factor_df : frame Feature.t) : list (list cell) :=
  (λ r, astype_float <$> Feature.factors r.2) <$> factor_df.

Definition no_risk_y_values (return_df : frame cell) : list (list cell) :=
  (λ r, [r.2]) <$> return_df.

(** ** The scenario with a risk model

    The data source of the scenario, with a risk panel that has the
    exposure [SIZE] for the instrument 600000 only. *)
Module RiskScenario.
Definition risk_panel : frame (list (string * cell)) :=
  [((1, 600000), [("SIZE", Num 1.0)]);
   ((2, 600000), [("SIZE", Num 2.0)])].

Definition engine : SqlEngine unit := {|
  fetch_factor_range := λ _ _ _, Ok Scenario.factor_panel;
  fetch_dx_return_range := λ _ _ _, Ok Scenario.return_panel;
  fetch_industry_range := λ _ _, Ok Scenario.industry_panel;
  fetch_benchmark_range := λ _ _, Ok Scenario.benchmark_panel;
  fetch_risk_model_range := λ _ _ _, Ok risk_panel
|}.
End RiskScenario.

(** The two frames that [prepare_data] returns on the scenario. *)
Definition scenario_target : frame cell :=
  (assemble Scenario.factor_panel Scenario.return_panel
     Scenario.industry_panel Scenario.benchmark_panel).1.

Definition scenario_features : frame Feature.t :=
  (assemble Scenario.factor_panel Scenario.return_panel
     Scenario.industry_panel Scenario.benchmark_panel).2.

(** * Properties *)

(** ** The frequency parser *)

Example map_horizon_1b : _map_horizon "1b" = Ok 0.
Proof. reflexivity. Qed.
Example map_horizon_2w : _map_horizon "2w" = Ok 9.
Proof. reflexivity. Qed.
Example map_horizon_3m : _map_horizon "3m" = Ok 65.
Proof. reflexivity. Qed.
Example map_horizon_xyz : _map_horizon "xyz" = Raise (PeriodError "xyz").
Proof. reflexivity. Qed.
Example map_horizon_1y :
  _map_horizon "1y" = Raise (ValueError "1y is an unrecognized frequency rule").
Proof. reflexivity. Qed.

Lemma split_last_app (s : string) (c : ascii) :
  split_last (s ++ String c EmptyString) = Some (s, c).
Proof.
  induction s as [|a s IH]; [reflexivity|].
  destruct s as [|b s]; [reflexivity|].
  simpl. simpl in IH. by rewrite IH.
Qed.

Lemma string_of_count_nonempty (n : N) : string_of_count n ≠ EmptyString.
Proof.
  unfold string_of_count. destruct n as [|p]; [discriminate|].
  cbn [N.to_uint]. pose proof (DecimalPos.Unsigned.to_uint_nonnil p) as Hn.
  destruct (Pos.to_uint p); [congruence|discriminate..].
Qed.

Lemma count_of_string_of_count (n : N) :
  count_of_string (string_of_count n) = Some (Z.of_N n).
Proof.
  unfold count_of_string.
  pose proof (string_of_count_nonempty n) as Hne.
  destruct (string_of_count n) eqn:E; [congruence|].
  rewrite <- E. unfold string_of_count.
  rewrite NilEmpty.usu. cbn. by rewrite DecimalN.Unsigned.of_to.
Qed.

Lemma unit_of_ascii_of_unit (u : TimeUnits) :
  unit_of_ascii (ascii_of_unit u) = Some u.
Proof. by destruct u. Qed.

(** Parsing the string built from a count and a unit gives them back. *)
Lemma Period_parse_frequency_string (n : N) (u : TimeUnits) :
  Period_parse (frequency_string n u) = Some (Period.make u (Z.of_N n)).
Proof.
  unfold Period_parse, frequency_string.
  by rewrite split_last_app, count_of_string_of_count, unit_of_ascii_of_unit.
Qed.

(** C5: when the frequency string parses to (unit, length), [_map_horizon]
    returns [length - 1] for business-day and calendar-day units,
    [5 * length - 1] for weeks and [22 * length - 1] for months; and
    "1b", "2w" and "3m" map to 0, 9 and 65. *)
Theorem map_horizon_by_unit (frequency : string) (p : Period.t) :
  Period_parse frequency = Some p →
  (Period.units p = BDays ∨ Period.units p = Days →
     _map_horizon frequency = Ok (Period.length p - 1)) ∧
  (Period.units p = Weeks →
     _map_horizon frequency = Ok (5 * Period.length p - 1)) ∧
  (Period.units p = Months →
     _map_horizon frequency = Ok (22 * Period.length p - 1)) ∧
  _map_horizon "1b" = Ok 0 ∧
  _map_horizon "2w" = Ok 9 ∧
  _map_horizon "3m" = Ok 65.
Proof.
  intros Hp. unfold _map_horizon at 1 2 3. rewrite Hp.
  unfold horizon_of_period.
  repeat split; try reflexivity; destruct p as [u n]; cbn.
  - by intros [-> | ->].
  - by intros ->.
  - by intros ->.
Qed.

Lemma map_horizon_by_unit_witness :
  Period_parse "4w" = Some (Period.make Weeks 4) ∧
  _map_horizon "4w" = Ok 19.
Proof.
  split; [reflexivity|].
  apply (map_horizon_by_unit "4w" (Period.make Weeks 4)); reflexivity.
Defined.

(** C6: for a frequency string whose unit is none of business days, days,
    weeks and months, [_map_horizon] ends in the exception
    [ValueError "<frequency> is an unrecognized frequency rule"], which
    nothing catches; it returns an integer exactly for the recognized
    units. *)
Theorem map_horizon_unrecognized (frequency : string) (p : Period.t) :
  Period_parse frequency = Some p →
  (¬ recognized (Period.units p) →
     _map_horizon frequency =
       Raise (ValueError (frequency ++ " is an unrecognized frequency rule"))) ∧
  ((∃ h, _map_horizon frequency = Ok h) ↔ recognized (Period.units p)).
Proof.
  intros Hp. unfold _map_horizon, recognized. rewrite Hp.
  destruct p as [u n]. unfold horizon_of_period. cbn.
  destruct u; cbn; split; try (intros H; exfalso; apply H; tauto);
    try (split; [tauto | eauto]); try reflexivity.
  split; [intros [h Hh]; discriminate | intros [|[|[|]]]; discriminate].
Qed.

Lemma map_horizon_unrecognized_witness :
  _map_horizon "2y" = Raise (ValueError "2y is an unrecognized frequency rule").
Proof.
  apply (map_horizon_unrecognized "2y" (Period.make Years 2)); [reflexivity|].
  unfold recognized. cbn. intros [|[|[|]]]; discriminate.
Defined.

(** C8: for a fixed recognized unit and counts [n1 <= n2], the horizon of
    the frequency string built from [n1] is at most the horizon of the one
    built from [n2]. *)
Theorem map_horizon_monotone (u : TimeUnits) (n1 n2 : N) :
  recognized u → (n1 <= n2)%N →
  ∃ h1 h2,
    _map_horizon (frequency_string n1 u) = Ok h1 ∧
    _map_horizon (frequency_string n2 u) = Ok h2 ∧
    h1 <= h2.
Proof.
  intros Hu Hn. unfold _map_horizon.
  rewrite !Period_parse_frequency_string. unfold horizon_of_period. cbn.
  destruct Hu as [-> | [-> | [-> | ->]]]; cbn;
    eexists _, _; (split; [reflexivity | split; [reflexivity | lia]]).
Qed.

Lemma map_horizon_monotone_witness :
  ∃ h1 h2,
    _map_horizon "3w" = Ok h1 ∧ _map_horizon "12w" = Ok h2 ∧ h1 <= h2.
Proof.
  apply (map_horizon_monotone Weeks 3 12).
  - unfold recognized. tauto.
  - lia.
Defined.

(** ** Python and numpy primitives *)

Lemma py_slice_to_neg {A} (l : list A) (b : Z) :
  1 <= b →
  py_slice_to l (- b) = take (length l - Z.to_nat b) l.
Proof.
  intros Hb. unfold py_slice_to.
  destruct (Z.ltb_spec (- b) 0) as [_|?]; [|lia].
  f_equal. lia.
Qed.

Lemma py_index_nonneg {A} (l : list A) (k : nat) (a : A) :
  l !! k = Some a → py_index l (Z.of_nat k) = Ok a.
Proof.
  intros Hk. pose proof (lookup_lt_Some _ _ _ Hk) as Hlt.
  unfold py_index.
  destruct (Z.ltb_spec (Z.of_nat k) 0) as [?|_]; [lia|].
  destruct (Z.ltb_spec (Z.of_nat k) 0) as [?|_]; [lia|].
  destruct (Z.leb_spec (Z.of_nat (length l)) (Z.of_nat k)) as [?|_]; [lia|].
  cbn. by rewrite Nat2Z.id, Hk.
Qed.

(** Selecting with a mask computed from the labels keeps the rows whose
    label passes the test. *)
Lemma select_rows_labelled {A} (f : Z → bool) (labels : list Z)
    (values : list A) :
  select (map f labels) values = rows_labelled (λ d, f d = true) labels values.
Proof.
  unfold rows_labelled. revert values.
  induction labels as [|d labels IH]; intros [|v values]; try done.
  cbn. rewrite IH. destruct (f d) eqn:E; case_decide; done.
Qed.

(** Two selections with one mask stay aligned row by row. *)
Lemma select_same_length {A B} (index : list bool) (xs : list A)
    (ys : list B) :
  length xs = length ys →
  length (select index xs) = length (select index ys).
Proof.
  revert xs ys. induction index as [|b index IH]; intros [|x xs] [|y ys] H;
    cbn in *; try done.
  destruct b; cbn; auto.
Qed.

Lemma mask_index_Ok {A} (values : list A) (index : list bool) :
  length index = length values →
  mask_index values index = Ok (select index values).
Proof. intros H. unfold mask_index. by rewrite bool_decide_eq_true_2. Qed.

Lemma rows_labelled_iff {A} (P Q : Z → Prop) `{!∀ d, Decision (P d)}
    `{!∀ d, Decision (Q d)} (labels : list Z) (values : list A) :
  (∀ d, P d ↔ Q d) →
  rows_labelled P labels values = rows_labelled Q labels values.
Proof.
  intros HPQ. unfold rows_labelled. f_equal.
  apply list_filter_iff. intros [d v]. apply HPQ.
Qed.

Lemma select_train_index {A} (start end_ : Z) (labels : list Z)
    (values : list A) :
  select (train_index start end_ labels) values
  = rows_labelled (λ d, start <= d < end_) labels values.
Proof.
  unfold train_index. rewrite select_rows_labelled.
  apply rows_labelled_iff. intros d. cbn.
  rewrite andb_true_iff, Z.leb_le, Z.ltb_lt. done.
Qed.

Lemma select_predict_index {A} (start end_ : Z) (labels : list Z)
    (values : list A) :
  select (predict_index start end_ labels) values
  = rows_labelled (λ d, start < d <= end_) labels values.
Proof.
  unfold predict_index. rewrite select_rows_labelled.
  apply rows_labelled_iff. intros d. cbn.
  rewrite andb_true_iff, Z.leb_le, Z.ltb_lt. done.
Qed.

Lemma select_label_is {A} (end_ : Z) (labels : list Z) (values : list A) :
  select (label_is end_ labels) values
  = rows_labelled (λ d, d = end_) labels values.
Proof.
  unfold label_is. rewrite select_rows_labelled.
  apply rows_labelled_iff. intros d. cbn. apply Z.eqb_eq.
Qed.

(** The labels that pass a test are labels of the vector, and pass. *)
Lemma elem_of_rows_labelled (P : Z → Prop) `{!∀ d, Decision (P d)}
    (labels : list Z) (d : Z) :
  d ∈ rows_labelled P labels labels ↔ d ∈ labels ∧ P d.
Proof.
  unfold rows_labelled. induction labels as [|x labels IH]; cbn.
  - rewrite elem_of_nil. tauto.
  - case_decide; cbn; rewrite ?elem_of_cons, IH.
    + split; [intros [->|[? ?]]; auto | intros [[->|?] ?]; auto].
    + split; [tauto|]. intros [[->|?] ?]; [done|tauto].
Qed.

(** No label passes: no row is selected. *)
Lemma rows_labelled_none {A} (P : Z → Prop) `{!∀ d, Decision (P d)}
    (labels : list Z) (values : list A) :
  (∀ d, d ∈ labels → ¬ P d) → rows_labelled P labels values = [].
Proof.
  unfold rows_labelled. revert values.
  induction labels as [|x labels IH]; intros values Hno; [done|].
  destruct values as [|v values]; [done|]. cbn. case_decide.
  - exfalso. apply (Hno x); [left|done].
  - apply IH. intros d Hd. apply Hno. by right.
Qed.

(** ** The batching engine *)

Section batch_properties.
Context {row risk_row process : Type}.
Variable factor_processing :
  list row → process → option (list risk_row) → process → result (list row).
Variables (x_values y_values : list row).
Variables (groups group_label : list Z).
Variable batch : Z.
Variable risk_exp : option (list risk_row).
Variables (pre_process post_process : process).

Abbreviation window' := (window factor_processing x_values y_values groups
  group_label batch risk_exp pre_process post_process).
Abbreviation window_entry' := (window_entry factor_processing x_values
  y_values groups group_label batch risk_exp pre_process post_process).
Abbreviation entries_from' := (entries_from factor_processing x_values
  y_values groups group_label batch risk_exp pre_process post_process).
Abbreviation batch_processing' := (batch_processing factor_processing
  x_values y_values groups group_label batch risk_exp pre_process
  post_process).
Abbreviation aligned' := (aligned x_values y_values group_label risk_exp).
Abbreviation preserves_rows' :=
  (preserves_rows factor_processing pre_process post_process).
Abbreviation entry_spec' := (entry_spec factor_processing x_values y_values
  group_label risk_exp pre_process post_process).
Abbreviation slice_risk' := (slice_risk risk_exp).
Abbreviation fp raw risk :=
  (factor_processing raw pre_process risk post_process).

Local Ltac bind_step :=
  lazymatch goal with
  | |- mbind _ ?m = _ => destruct m; cbn; try reflexivity
  | |- (if ?c then _ else _) = _ => destruct c; cbn; try reflexivity
  end.

(** One iteration is [window_entry] followed by [store]. *)
Lemma window_store (acc : buckets row) (i : nat) (start : Z) :
  window' acc i start = e ← window_entry' i start; Ok (store acc e).
Proof.
  unfold window, window_entry.
  repeat bind_step.
Qed.

Lemma for_enumerate_window (l : list Z) (i : nat) (acc : buckets row) :
  for_enumerate window' i l acc =
    es ← entries_from' i l; Ok (foldl store acc es).
Proof.
  revert i acc. induction l as [|start l IH]; intros i acc; [reflexivity|].
  cbn. rewrite window_store.
  destruct (window_entry' i start) as [e|]; cbn; [|reflexivity].
  rewrite IH. by destruct (entries_from' (S i) l).
Qed.

(** *** What a sequence of stores leaves in the dictionaries *)

Lemma foldl_store_other (es : list (entry row)) (acc : buckets row) (k : Z) :
  k ∉ entry_end <$> es →
  train_x_buckets (foldl store acc es) !! k = train_x_buckets acc !! k ∧
  train_y_buckets (foldl store acc es) !! k = train_y_buckets acc !! k ∧
  predict_x_buckets (foldl store acc es) !! k = predict_x_buckets acc !! k ∧
  predict_y_buckets (foldl store acc es) !! k = predict_y_buckets acc !! k.
Proof.
  revert acc. induction es as [|e es IH]; intros acc Hk; [done|].
  rewrite fmap_cons in Hk. apply not_elem_of_cons in Hk as [Hne Hk].
  cbn [foldl]. destruct (IH (store acc e) Hk) as (-> & -> & -> & ->).
  unfold store; cbn. rewrite !lookup_insert_ne by done.
  destruct (entry_predict_y e); rewrite ?lookup_insert_ne by done; done.
Qed.

Lemma foldl_store_lookup (es : list (entry row)) (acc : buckets row)
    (j : nat) (e : entry row) :
  NoDup (entry_end <$> es) → es !! j = Some e →
  train_x_buckets (foldl store acc es) !! entry_end e
    = Some (entry_train_x e) ∧
  train_y_buckets (foldl store acc es) !! entry_end e
    = Some (entry_train_y e) ∧
  predict_x_buckets (foldl store acc es) !! entry_end e
    = Some (entry_predict_x e) ∧
  predict_y_buckets (foldl store acc es) !! entry_end e
    = match entry_predict_y e with
      | Some py => Some py
      | None => predict_y_buckets acc !! entry_end e
      end.
Proof.
  revert acc j. induction es as [|e' es IH]; intros acc j Hnd Hj; [done|].
  rewrite fmap_cons in Hnd. apply NoDup_cons in Hnd as [Hfresh Hnd].
  cbn [foldl]. destruct j as [|j]; cbn in Hj.
  - injection Hj as ->.
    destruct (foldl_store_other es (store acc e) _ Hfresh)
      as (-> & -> & -> & ->).
    unfold store; cbn. rewrite !lookup_insert_eq.
    by destruct (entry_predict_y e); rewrite ?lookup_insert_eq.
  - destruct (IH (store acc e') j Hnd Hj) as (-> & -> & -> & ->).
    repeat split. destruct (entry_predict_y e); [done|].
    assert (entry_end e' ≠ entry_end e) as Hne.
    { intros Heq. apply Hfresh. rewrite Heq.
      apply list_elem_of_fmap. exists e. split; [done|].
      by eapply list_elem_of_lookup_2. }
    unfold store; cbn.
    by destruct (entry_predict_y e'); rewrite ?lookup_insert_ne.
Qed.

Lemma foldl_store_dom (es : list (entry row)) (acc : buckets row) :
  dom (train_x_buckets (foldl store acc es))
    = dom (train_x_buckets acc) ∪ list_to_set (entry_end <$> es) ∧
  dom (train_y_buckets (foldl store acc es))
    = dom (train_y_buckets acc) ∪ list_to_set (entry_end <$> es) ∧
  dom (predict_x_buckets (foldl store acc es))
    = dom (predict_x_buckets acc) ∪ list_to_set (entry_end <$> es) ∧
  dom (predict_y_buckets (foldl store acc es))
    ⊆ dom (predict_y_buckets acc) ∪ list_to_set (entry_end <$> es).
Proof.
  revert acc. induction es as [|e es IH]; intros acc.
  - cbn. repeat split; set_solver.
  - cbn [foldl]. destruct (IH (store acc e)) as (-> & -> & -> & Hy).
    rewrite fmap_cons, list_to_set_cons. unfold store in *; cbn in *.
    rewrite !dom_insert_L. clear IH.
    split; [clear Hy; set_solver|].
    split; [clear Hy; set_solver|].
    split; [clear Hy; set_solver|].
    intros k Hk. apply Hy in Hk.
    destruct (entry_predict_y e); [rewrite dom_insert_L in Hk|];
      set_solver.
Qed.

(** *** One iteration under the preconditions *)

Lemma slice_risk_Ok (index : list bool) :
  aligned' → length index = length group_label →
  ∃ r, slice_risk' index = Ok r.
Proof.
  intros (_ & _ & Hr) Hlen. unfold slice_risk.
  destruct risk_exp as [r|]; [|by eexists].
  rewrite mask_index_Ok by (by rewrite Hlen, (Hr r)). cbn. by eexists.
Qed.

Lemma window_entry_spec (i : nat) (start end_ : Z) :
  aligned' → preserves_rows' → 0 <= batch →
  groups !! (i + Z.to_nat batch)%nat = Some end_ →
  ∃ e, window_entry' i start = Ok e ∧ entry_spec' start end_ e.
Proof.
  intros Hal Hfp Hb Hend. pose proof Hal as (Hx & Hy & Hr).
  unfold window_entry, entry_spec.
  replace (Z.of_nat i + batch) with (Z.of_nat (i + Z.to_nat batch)) by lia.
  rewrite (py_index_nonneg _ _ _ Hend). cbn [mbind result_bind].
  set (tidx := train_index start end_ group_label).
  set (pidx := predict_index start end_ group_label).
  assert (length tidx = length group_label) as Ht
    by (unfold tidx, train_index; by rewrite length_map).
  assert (length pidx = length group_label) as Hp
    by (unfold pidx, predict_index; by rewrite length_map).
  rewrite (mask_index_Ok x_values tidx), (mask_index_Ok y_values tidx)
    by congruence.
  cbn [mbind result_bind].
  destruct (slice_risk_Ok tidx Hal Ht) as [r1 Hr1]. rewrite Hr1.
  cbn [mbind result_bind].
  destruct (Hfp (select tidx x_values) r1) as (tx & Htx & _). rewrite Htx.
  destruct (Hfp (select tidx y_values) r1) as (ty & Hty & _). rewrite Hty.
  cbn [mbind result_bind].
  rewrite (mask_index_Ok group_label pidx), (mask_index_Ok x_values pidx)
    by congruence.
  cbn [mbind result_bind].
  destruct (slice_risk_Ok pidx Hal Hp) as [r2 Hr2]. rewrite Hr2.
  cbn [mbind result_bind].
  destruct (Hfp (select pidx x_values) r2) as (ne_x & Hnx & Hlx). rewrite Hnx.
  cbn [mbind result_bind].
  assert (length ne_x = length (select pidx group_label)) as Hlx'.
  { rewrite Hlx. by apply select_same_length. }
  rewrite (mask_index_Ok ne_x)
    by (unfold label_is; by rewrite length_map).
  cbn [mbind result_bind].
  rewrite (mask_index_Ok y_values pidx) by congruence.
  cbn [mbind result_bind].
  destruct (Z.ltb_spec 0 (Z.of_nat (length (select pidx y_values))))
    as [Hlen|Hlen].
  - destruct (Hfp (select pidx y_values) r2) as (ne_y & Hny & Hly).
    rewrite Hny. cbn [mbind result_bind].
    assert (length ne_y = length (select pidx group_label)) as Hly'.
    { rewrite Hly. by apply select_same_length. }
    rewrite (mask_index_Ok ne_y)
      by (unfold label_is; by rewrite length_map).
    cbn. eexists. split; [reflexivity|]. cbn.
    split; [done|]. split; [by exists r1|].
    exists r2, ne_x. repeat split; try done.
    + intros E. rewrite E in Hlen. cbn in Hlen. lia.
    + by exists ne_y.
  - cbn. eexists. split; [reflexivity|]. cbn.
    split; [done|]. split; [by exists r1|].
    exists r2, ne_x. repeat split; try done.
    destruct (select pidx y_values); [done|cbn in Hlen; lia].
Qed.

(** *** The whole loop under the preconditions *)

Lemma entries_from_spec (l : list Z) (i : nat) :
  aligned' → preserves_rows' → 0 <= batch →
  (∀ j, (j < length l)%nat →
     is_Some (groups !! (i + j + Z.to_nat batch)%nat)) →
  ∃ es,
    entries_from' i l = Ok es ∧ length es = length l ∧
    ∀ j start end_,
      l !! j = Some start →
      groups !! (i + j + Z.to_nat batch)%nat = Some end_ →
      ∃ e, es !! j = Some e ∧ entry_spec' start end_ e.
Proof.
  intros Hal Hfp Hb. revert i.
  induction l as [|start0 l IH]; intros i Hin.
  - exists []. repeat split; [done..|]. intros j ? ? Hj. done.
  - destruct (Hin 0%nat) as [end0 Hend0]; [cbn; lia|].
    rewrite Nat.add_0_r in Hend0.
    destruct (window_entry_spec i start0 end0 Hal Hfp Hb Hend0)
      as (e & He & Hspec).
    destruct (IH (S i)) as (es & Hes & Hlen & Hall).
    { intros j Hj. replace (S i + j + Z.to_nat batch)%nat
        with (i + S j + Z.to_nat batch)%nat by lia.
      apply Hin. cbn. lia. }
    exists (e :: es). cbn [entries_from].
    split; [|split].
    + cbn. rewrite He. cbn. rewrite Hes. done.
    + cbn. by rewrite Hlen.
    + intros [|j] start end_ Hj Hend; cbn in Hj.
      * injection Hj as <-. rewrite Nat.add_0_r in Hend.
        exists e. split; [done|]. congruence.
      * apply (Hall j); [done|].
        by replace (S i + j + Z.to_nat batch)%nat
          with (i + S j + Z.to_nat batch)%nat by lia.
Qed.

(** The function returns, and its dictionaries are the stores of one
    entry per window, in order, keyed by [groups[batch:]]. *)
Lemma batch_processing_entries :
  aligned' → preserves_rows' → 1 <= batch →
  ∃ es,
    batch_processing' = Ok (foldl store (Buckets ∅ ∅ ∅ ∅) es) ∧
    entry_end <$> es = drop (Z.to_nat batch) groups ∧
    ∀ i start end_,
      groups !! i = Some start →
      groups !! (i + Z.to_nat batch)%nat = Some end_ →
      ∃ e, es !! i = Some e ∧ entry_spec' start end_ e.
Proof.
  intros Hal Hfp Hb. unfold batch_processing.
  rewrite py_slice_to_neg, for_enumerate_window by done.
  set (b := Z.to_nat batch). set (n := length groups).
  destruct (entries_from_spec (take (n - b) groups) 0 Hal Hfp)
    as (es & Hes & Hlen & Hall); [lia| |].
  { intros j Hj. rewrite length_take in Hj. cbn.
    apply lookup_lt_is_Some. fold b n. lia. }
  rewrite length_take in Hlen. fold n in Hlen.
  exists es. rewrite Hes. split; [done|]. split.
  - apply list_eq. intros j. rewrite list_lookup_fmap, lookup_drop.
    destruct (decide (j < n - b)%nat) as [Hj|Hj].
    + destruct (lookup_lt_is_Some_2 groups j) as [start Hs]; [fold n; lia|].
      destruct (lookup_lt_is_Some_2 groups (b + j)) as [end_ He];
        [fold n; lia|].
      destruct (Hall j start end_) as (e & Hej & Hspec).
      * rewrite lookup_take_lt by done. done.
      * by replace (0 + j + Z.to_nat batch)%nat with (b + j)%nat
          by (unfold b; lia).
      * rewrite Hej, He. cbn. f_equal. apply Hspec.
    + rewrite (lookup_ge_None_2 es), (lookup_ge_None_2 groups); [done|..];
        fold n; lia.
  - intros i start end_ Hi Hend.
    apply (Hall i); [|done].
    rewrite lookup_take_lt; [done|].
    apply lookup_lt_Some in Hend. fold n b in Hend. lia.
Qed.

Lemma NoDup_drop_groups (k : nat) : NoDup groups → NoDup (drop k groups).
Proof.
  intros Hnd. rewrite <- (take_drop k groups) in Hnd.
  by apply NoDup_app in Hnd as (_ & _ & ?).
Qed.

(** The four dictionaries at the key of one window. *)
Lemma batch_processing_lookup (i : nat) (start end_ : Z) :
  aligned' → preserves_rows' → NoDup groups → 1 <= batch →
  groups !! i = Some start →
  groups !! (i + Z.to_nat batch)%nat = Some end_ →
  ∃ b e,
    batch_processing' = Ok b ∧ entry_spec' start end_ e ∧
    train_x_buckets b !! end_ = Some (entry_train_x e) ∧
    train_y_buckets b !! end_ = Some (entry_train_y e) ∧
    predict_x_buckets b !! end_ = Some (entry_predict_x e) ∧
    predict_y_buckets b !! end_ = entry_predict_y e.
Proof.
  intros Hal Hfp Hnd Hb Hi Hend.
  destruct (batch_processing_entries Hal Hfp Hb) as (es & Hrun & Hkeys & Hall).
  destruct (Hall i start end_ Hi Hend) as (e & He & Hspec).
  exists (foldl store (Buckets ∅ ∅ ∅ ∅) es), e.
  split; [done|]. split; [done|].
  assert (NoDup (entry_end <$> es)) as Hnd'
    by (rewrite Hkeys; by apply NoDup_drop_groups).
  destruct (foldl_store_lookup es (Buckets ∅ ∅ ∅ ∅) i e Hnd' He)
    as (Htx & Hty & Hpx & Hpy).
  destruct Hspec as (<- & _). repeat split; try done.
  rewrite Hpy. cbn. rewrite lookup_empty. by destruct (entry_predict_y e).
Qed.

(** The key sets of the four dictionaries. *)
Lemma batch_processing_dom :
  aligned' → preserves_rows' → 1 <= batch →
  ∃ b,
    batch_processing' = Ok b ∧
    dom (train_x_buckets b) = list_to_set (drop (Z.to_nat batch) groups) ∧
    dom (train_y_buckets b) = list_to_set (drop (Z.to_nat batch) groups) ∧
    dom (predict_x_buckets b) = list_to_set (drop (Z.to_nat batch) groups) ∧
    dom (predict_y_buckets b) ⊆ list_to_set (drop (Z.to_nat batch) groups).
Proof.
  intros Hal Hfp Hb.
  destruct (batch_processing_entries Hal Hfp Hb) as (es & Hrun & Hkeys & _).
  exists (foldl store (Buckets ∅ ∅ ∅ ∅) es). split; [done|].
  destruct (foldl_store_dom es (Buckets ∅ ∅ ∅ ∅)) as (-> & -> & -> & Hy).
  cbn in *. rewrite !dom_empty_L, !(left_id_L ∅ (∪)), Hkeys in *.
  done.
Qed.

Lemma size_keys (m : gmap Z (list row)) (k : nat) :
  NoDup groups →
  dom m = list_to_set (drop k groups) →
  size m = (length groups - k)%nat.
Proof.
  intros Hnd Hdom. rewrite <- size_dom, Hdom.
  rewrite size_list_to_set by (by apply NoDup_drop_groups).
  apply length_drop.
Qed.

Lemma size_keys_le (m : gmap Z (list row)) (k : nat) :
  NoDup groups →
  dom m ⊆ list_to_set (drop k groups) →
  (size m <= length groups - k)%nat.
Proof.
  intros Hnd Hdom. rewrite <- size_dom.
  etrans; [apply (subseteq_size _ _ Hdom)|].
  rewrite size_list_to_set by (by apply NoDup_drop_groups).
  by rewrite length_drop.
Qed.

(** C1: for the window with index [i], the train buckets stored under the
    key [end_ = groups[i + batch]] are the preprocessed slices of exactly
    the rows whose label lies in the half-open interval from
    [start = groups[i]] to [end_]; a label of a row of that slice is at
    least [start], below [end_], and so never equal to the key. *)
Theorem train_bucket_window (i : nat) (start end_ : Z) :
  aligned x_values y_values group_label risk_exp →
  preserves_rows factor_processing pre_process post_process →
  NoDup groups → 1 <= batch →
  groups !! i = Some start →
  groups !! (i + Z.to_nat batch)%nat = Some end_ →
  ∃ b risk tx ty,
    batch_processing factor_processing x_values y_values groups group_label
      batch risk_exp pre_process post_process = Ok b ∧
    slice_risk risk_exp (train_index start end_ group_label) = Ok risk ∧
    fp (rows_labelled (λ d, start <= d < end_) group_label x_values) risk
      = Ok tx ∧
    train_x_buckets b !! end_ = Some tx ∧
    fp (rows_labelled (λ d, start <= d < end_) group_label y_values) risk
      = Ok ty ∧
    train_y_buckets b !! end_ = Some ty ∧
    ∀ d,
      d ∈ rows_labelled (λ d, start <= d < end_) group_label group_label →
      start <= d < end_ ∧ d ≠ end_.
Proof.
  intros Hal Hfp Hnd Hb Hi Hend.
  destruct (batch_processing_lookup i start end_ Hal Hfp Hnd Hb Hi Hend)
    as (b & e & Hrun & Hspec & Htx & Hty & _ & _).
  destruct Hspec as (_ & (risk & Hrisk & Hfx & Hfy) & _).
  rewrite select_train_index in Hfx, Hfy.
  exists b, risk, (entry_train_x e), (entry_train_y e).
  repeat split; try done;
    apply elem_of_rows_labelled in H as [_ ?]; lia.
Qed.

(** C2: for the window with index [i], the predict buckets stored under
    [end_] are cut out of the preprocessed shifted window, the rows with a
    label above [start] and up to [end_], and keep only the rows whose
    label equals [end_]; this holds for the feature bucket, and for the
    target bucket when there is one. *)
Theorem predict_bucket_rows (i : nat) (start end_ : Z) :
  aligned x_values y_values group_label risk_exp →
  preserves_rows factor_processing pre_process post_process →
  NoDup groups → 1 <= batch →
  groups !! i = Some start →
  groups !! (i + Z.to_nat batch)%nat = Some end_ →
  ∃ b risk ne_x,
    let sub_dates :=
      rows_labelled (λ d, start < d <= end_) group_label group_label in
    batch_processing factor_processing x_values y_values groups group_label
      batch risk_exp pre_process post_process = Ok b ∧
    slice_risk risk_exp (predict_index start end_ group_label) = Ok risk ∧
    fp (rows_labelled (λ d, start < d <= end_) group_label x_values) risk
      = Ok ne_x ∧
    length ne_x = length sub_dates ∧
    predict_x_buckets b !! end_
      = Some (rows_labelled (λ d, d = end_) sub_dates ne_x) ∧
    ∀ py,
      predict_y_buckets b !! end_ = Some py →
      ∃ ne_y,
        fp (rows_labelled (λ d, start < d <= end_) group_label y_values) risk
          = Ok ne_y ∧
        length ne_y = length sub_dates ∧
        py = rows_labelled (λ d, d = end_) sub_dates ne_y.
Proof.
  intros Hal Hfp Hnd Hb Hi Hend.
  destruct (batch_processing_lookup i start end_ Hal Hfp Hnd Hb Hi Hend)
    as (b & e & Hrun & Hspec & _ & _ & Hpx & Hpy).
  destruct Hspec as (_ & _ & (risk & ne_x & Hrisk & Hfx & Hlx & Hex & Hey)).
  rewrite select_predict_index in Hfx.
  rewrite select_predict_index in Hlx.
  rewrite select_predict_index, select_label_is in Hex.
  exists b, risk, ne_x. cbn zeta.
  repeat split; try done; [by rewrite Hpx, Hex|].
  intros py Hy. rewrite Hpy in Hy. rewrite Hy in Hey.
  destruct Hey as (_ & ne_y & Hfy & Hly & ->).
  exists ne_y. rewrite select_predict_index in Hfy.
  rewrite select_predict_index in Hly.
  by rewrite select_predict_index, select_label_is.
Qed.

(** C3, amended: for a schedule of [n] distinct dates and a batch size
    [b] with [1 <= b <= n], the engine returns exactly [n - b] train
    buckets of each kind and at most [n - b] predict buckets of each kind,
    and the keys in use are exactly [groups[b], ..., groups[n-1]]. *)
Theorem bucket_counts_and_keys :
  aligned x_values y_values group_label risk_exp →
  preserves_rows factor_processing pre_process post_process →
  NoDup groups →
  1 <= batch → batch <= Z.of_nat (length groups) →
  ∃ b,
    batch_processing factor_processing x_values y_values groups group_label
      batch risk_exp pre_process post_process = Ok b ∧
    Z.of_nat (size (train_x_buckets b)) = Z.of_nat (length groups) - batch ∧
    Z.of_nat (size (train_y_buckets b)) = Z.of_nat (length groups) - batch ∧
    Z.of_nat (size (predict_x_buckets b)) <= Z.of_nat (length groups) - batch ∧
    Z.of_nat (size (predict_y_buckets b)) <= Z.of_nat (length groups) - batch ∧
    dom (train_x_buckets b) = list_to_set (drop (Z.to_nat batch) groups) ∧
    dom (train_y_buckets b) = list_to_set (drop (Z.to_nat batch) groups) ∧
    dom (train_x_buckets b) ∪ dom (train_y_buckets b) ∪
      dom (predict_x_buckets b) ∪ dom (predict_y_buckets b)
      = list_to_set (drop (Z.to_nat batch) groups).
Proof.
  intros Hal Hfp Hnd Hb Hbn.
  destruct (batch_processing_dom Hal Hfp Hb) as (b & Hrun & Htx & Hty & Hpx & Hpy).
  exists b. split; [done|].
  pose proof (size_keys _ _ Hnd Htx).
  pose proof (size_keys _ _ Hnd Hty).
  pose proof (size_keys _ _ Hnd Hpx).
  pose proof (size_keys_le _ _ Hnd Hpy).
  repeat split; try lia; try done.
  rewrite Htx, Hty, Hpx. set_solver.
Qed.

(** C4, amended: for the window with index [i], the predict target bucket
    of its key is left out of the returned dictionary exactly when the
    predict input window, the rows with a label above [start] and up to
    [end_], has no target row; and when the window has target rows but
    none of them is labelled [end_], an empty array is stored under the
    key. *)
Theorem predict_target_omitted_or_empty (i : nat) (start end_ : Z) :
  aligned x_values y_values group_label risk_exp →
  preserves_rows factor_processing pre_process post_process →
  NoDup groups → 1 <= batch →
  groups !! i = Some start →
  groups !! (i + Z.to_nat batch)%nat = Some end_ →
  ∃ b,
    batch_processing factor_processing x_values y_values groups group_label
      batch risk_exp pre_process post_process = Ok b ∧
    (predict_y_buckets b !! end_ = None ↔
     rows_labelled (λ d, start < d <= end_) group_label y_values = []) ∧
    (rows_labelled (λ d, start < d <= end_) group_label y_values ≠ [] →
     end_ ∉ rows_labelled (λ d, start < d <= end_) group_label group_label →
     predict_y_buckets b !! end_ = Some []).
Proof.
  intros Hal Hfp Hnd Hb Hi Hend.
  destruct (batch_processing_lookup i start end_ Hal Hfp Hnd Hb Hi Hend)
    as (b & e & Hrun & Hspec & _ & _ & _ & Hpy).
  destruct Hspec as (_ & _ & (risk & ne_x & _ & _ & _ & _ & Hey)).
  exists b. split; [done|]. rewrite Hpy.
  destruct (entry_predict_y e) as [py|].
  - destruct Hey as (Hne & ne_y & _ & _ & ->).
    rewrite select_predict_index in Hne. split.
    + split; [done|]. intros E. by rewrite E in Hne.
    + intros _ Hno. f_equal. rewrite select_label_is.
      apply rows_labelled_none. intros d Hd ->.
      by rewrite select_predict_index in Hd.
  - rewrite select_predict_index in Hey. split; [done|].
    intros Hne. by rewrite Hey in Hne.
Qed.

(** C10: for a schedule of [n] distinct dates and [1 <= batch <= n], the
    predict feature dictionary has an entry for every window: exactly
    [n - batch] keys, [groups[batch], ..., groups[n-1]]; the entry is there,
    empty, also when no row is labelled with the key; and every key of
    the predict target dictionary is a key of the feature dictionary. *)
Theorem predict_x_never_omitted :
  aligned x_values y_values group_label risk_exp →
  preserves_rows factor_processing pre_process post_process →
  NoDup groups →
  1 <= batch → batch <= Z.of_nat (length groups) →
  ∃ b,
    batch_processing factor_processing x_values y_values groups group_label
      batch risk_exp pre_process post_process = Ok b ∧
    Z.of_nat (size (predict_x_buckets b)) = Z.of_nat (length groups) - batch ∧
    dom (predict_x_buckets b) = list_to_set (drop (Z.to_nat batch) groups) ∧
    dom (predict_y_buckets b) ⊆ dom (predict_x_buckets b) ∧
    ∀ end_,
      end_ ∈ drop (Z.to_nat batch) groups → end_ ∉ group_label →
      predict_x_buckets b !! end_ = Some [].
Proof.
  intros Hal Hfp Hnd Hb Hbn.
  destruct (batch_processing_dom Hal Hfp Hb) as (b & Hrun & _ & _ & Hpx & Hpy).
  exists b. split; [done|].
  pose proof (size_keys _ _ Hnd Hpx).
  repeat split; [lia|done|by rewrite Hpx|].
  intros end_ Hin Hno.
  apply list_elem_of_lookup in Hin as [j Hj]. rewrite lookup_drop in Hj.
  destruct (lookup_lt_is_Some_2 groups j) as [start Hs].
  { apply lookup_lt_Some in Hj. lia. }
  rewrite Nat.add_comm in Hj.
  destruct (batch_processing_lookup j start end_ Hal Hfp Hnd Hb Hs Hj)
    as (b' & e & Hrun' & Hspec & _ & _ & Hlook & _).
  rewrite Hrun in Hrun'. injection Hrun' as <-.
  destruct Hspec as (_ & _ & (risk & ne_x & _ & _ & _ & Hex & _)).
  rewrite Hlook, Hex, select_label_is. f_equal.
  apply rows_labelled_none. intros d Hd ->.
  rewrite select_predict_index in Hd.
  apply elem_of_rows_labelled in Hd as [Hd _]. done.
Qed.
End batch_properties.

(** ** The panel assembler *)

Lemma elem_of_merge {A B} (left : frame A) (right : frame B)
    (x : key * (A * B)) :
  x ∈ merge left right ↔ (x.1, x.2.1) ∈ left ∧ (x.1, x.2.2) ∈ right.
Proof.
  unfold merge. rewrite list_elem_of_bind. split.
  - intros ([k a] & Hx & Hl). apply list_elem_of_bind in Hx as ([k' b] & Hx & Hr).
    case_bool_decide as Hk; [|by apply elem_of_nil in Hx].
    apply list_elem_of_singleton in Hx as ->. cbn. by subst k'.
  - destruct x as [k [a b]]. cbn. intros [Hl Hr].
    exists (k, a). split; [|done]. apply list_elem_of_bind.
    exists (k, b). split; [|done].
    rewrite bool_decide_eq_true_2 by done. by apply list_elem_of_singleton.
Qed.

Lemma elem_of_merge_left {A B} (left : frame A) (right : frame B)
    (x : key * (A * option B)) :
  x ∈ merge_left left right →
  (x.1, x.2.1) ∈ left ∧
  match x.2.2 with
  | Some b => (x.1, b) ∈ right
  | None => x.1 ∉ right.*1
  end.
Proof.
  unfold merge_left. rewrite list_elem_of_bind.
  intros ([k a] & Hx & Hl).
  destruct (filter (λ r : key * B, r.1 = k) right) as [|p partners] eqn:E.
  - apply list_elem_of_singleton in Hx as ->. cbn. split; [done|].
    intros Hin. apply list_elem_of_fmap in Hin as ([k' b] & Hk & Hin).
    cbn in Hk. subst k'.
    assert ((k, b) ∈ filter (λ r : key * B, r.1 = k) right) as Hf
      by (by apply list_elem_of_filter).
    rewrite E in Hf. by apply elem_of_nil in Hf.
  - rewrite <- E in Hx. apply list_elem_of_fmap in Hx as ([k' b] & -> & Hin).
    apply list_elem_of_filter in Hin as [Hk Hin]. cbn in *. by subst k'.
Qed.

(** ** The orchestrator *)

Section pipeline_properties.
Context {Universe Factors process : Type}.
Variable makeSchedule : string → string → string → result (list Z).
Variable advanceDateByCalendar : string → string → string → result string.
Variable new_Transformer : Factors → Transformer.
Variable factor_processing :
  list (list cell) → process → option (list (list cell)) → process →
  result (list (list cell)).

Abbreviation prepare_data' :=
  (prepare_data makeSchedule advanceDateByCalendar new_Transformer).
Abbreviation load_package' :=
  (load_package makeSchedule advanceDateByCalendar new_Transformer).
Abbreviation fetch_data_package' :=
  (fetch_data_package makeSchedule advanceDateByCalendar new_Transformer
     factor_processing).

(** What [prepare_data] returns is [assemble] on the four panels that the
    engine delivers for the schedule. *)
Lemma prepare_data_assemble (engine : SqlEngine Universe)
    (factors : Transformer + Factors)
    (start_date end_date frequency : string) (universe : Universe)
    (benchmark warm_start : Z) (dates : list Z) (target : frame cell)
    (features : frame Feature.t) :
  prepare_data' engine factors start_date end_date frequency universe
    benchmark warm_start = Ok (dates, target, features) →
  ∃ transformer horizon factor_df return_df industry_df benchmark_df,
    _map_horizon frequency = Ok horizon ∧
    fetch_factor_range engine universe transformer dates = Ok factor_df ∧
    fetch_dx_return_range engine universe dates horizon = Ok return_df ∧
    fetch_industry_range engine universe dates = Ok industry_df ∧
    fetch_benchmark_range engine benchmark dates = Ok benchmark_df ∧
    (target, features)
      = assemble (sort_values factor_df) return_df industry_df benchmark_df.
Proof.
  unfold prepare_data. intros H.
  destruct (if 0 <? warm_start then _ else _) as [sd|]; [|done].
  cbn [mbind result_bind fmap result_fmap] in H. destruct (makeSchedule sd end_date frequency) as [ds|]; [|done].
  cbn [mbind result_bind fmap result_fmap] in H. destruct (_map_horizon frequency) as [h|]; [|done].
  cbn [mbind result_bind fmap result_fmap] in H.
  set (transformer := match factors with inl t => t | inr fs => _ end) in H.
  destruct (fetch_factor_range engine universe transformer ds)
    as [factor_df|] eqn:Ef; [|done].
  cbn [mbind result_bind fmap result_fmap] in H.
  destruct (fetch_dx_return_range engine universe ds h)
    as [return_df|] eqn:Er; [|done].
  cbn [mbind result_bind fmap result_fmap] in H.
  destruct (fetch_industry_range engine universe ds)
    as [industry_df|] eqn:Ei; [|done].
  cbn [mbind result_bind fmap result_fmap] in H.
  destruct (fetch_benchmark_range engine benchmark ds)
    as [benchmark_df|] eqn:Eb; [|done].
  cbn [mbind result_bind fmap result_fmap] in H.
  destruct (assemble (sort_values factor_df) return_df industry_df
              benchmark_df) as [t f] eqn:Ea.
  injection H as -> -> ->.
  by exists transformer, h, factor_df, return_df, industry_df, benchmark_df.
Qed.

(** With [neutralized_risk = None] the loading part always ends in an
    exception, and when the panels were loaded that exception is the
    [TypeError] of iterating over [None]. *)
Lemma load_package_None (engine : SqlEngine Universe)
    (alpha_factors : Factors) (start_date end_date frequency : string)
    (universe : Universe) (benchmark warm_start : Z) (risk_model : string) :
  ∃ e,
    load_package' engine alpha_factors start_date end_date frequency
      universe benchmark warm_start None risk_model = Raise e ∧
    (is_Ok (prepare_data' engine (inl (new_Transformer alpha_factors))
              start_date end_date frequency universe benchmark warm_start) →
     e = TypeError "'NoneType' object is not iterable").
Proof.
  unfold load_package, is_Ok.
  destruct (prepare_data' _ _ _ _ _ _ _ _) as [[[dates return_df] factor_df]|e].
  - cbn. eexists. split; [reflexivity|done].
  - cbn. exists e. split; [done|]. by intros [? ?].
Qed.

(** C9: a call of [fetch_data_package] with [neutralized_risk = None]
    never returns a data package: it ends in an exception, and when the
    panels were assembled that exception is the [TypeError] raised by
    iterating over [None] (line 184), before the batching engine runs. *)
Theorem fetch_data_package_None (engine : SqlEngine Universe)
    (alpha_factors : Factors) (start_date end_date frequency : string)
    (universe : Universe) (benchmark warm_start batch : Z)
    (risk_model : string) (pre_process post_process : process) :
  ∃ e,
    fetch_data_package' engine alpha_factors start_date end_date frequency
      universe benchmark warm_start batch None risk_model pre_process
      post_process
    = (["Starting data package fetching ..."], Raise e) ∧
    (is_Ok (prepare_data' engine (inl (new_Transformer alpha_factors))
              start_date end_date frequency universe benchmark warm_start) →
     e = TypeError "'NoneType' object is not iterable").
Proof.
  destruct (load_package_None engine alpha_factors start_date end_date
              frequency universe benchmark warm_start risk_model)
    as (e & Hload & He).
  exists e. split; [|done].
  unfold fetch_data_package. by rewrite Hload.
Qed.
End pipeline_properties.

(** ** The scenario: instances of the theorems and the inputs on which
    two statements of the specification fail *)

Lemma identity_preserves_rows {row : Type} :
  preserves_rows (@identity_processing row) () ().
Proof. intros raw risk. by exists raw. Qed.

Lemma aligned_no_risk {row risk_row : Type} (x_values y_values : list row)
    (group_label : list Z) :
  length x_values = length group_label →
  length y_values = length group_label →
  aligned (risk_row := risk_row) x_values y_values group_label None.
Proof. intros Hx Hy. by repeat split. Qed.

Lemma NoDup_scenario_dates : NoDup Scenario.dates.
Proof. apply (bool_decide_unpack (NoDup Scenario.dates)). by vm_compute. Qed.

Example scenario_buckets :
  ∃ b,
    Scenario.run Scenario.features Scenario.targets Scenario.dates
      Scenario.dates 1 = Ok b ∧
    train_x_buckets b = {[2 := [1]; 3 := [2]; 4 := [3]]} ∧
    predict_x_buckets b = {[2 := [2]; 3 := [3]; 4 := [4]]}.
Proof. eexists. split; [reflexivity|]. split; by vm_compute. Qed.

Lemma train_bucket_window_witness :
  ∃ b,
    Scenario.run Scenario.features Scenario.targets Scenario.dates
      Scenario.dates 1 = Ok b ∧
    train_x_buckets b !! 2 = Some [1] ∧
    train_y_buckets b !! 2 = Some [10].
Proof.
  destruct (train_bucket_window identity_processing Scenario.features
              Scenario.targets Scenario.dates Scenario.dates 1 None () ()
              0%nat 1 2)
    as (b & risk & tx & ty & Hrun & _ & Hx & Htx & Hy & Hty & _).
  - by apply aligned_no_risk.
  - apply identity_preserves_rows.
  - apply NoDup_scenario_dates.
  - lia.
  - reflexivity.
  - reflexivity.
  - exists b. split; [exact Hrun|].
    injection Hx as <-. injection Hy as <-. split; assumption.
Defined.

Lemma predict_bucket_rows_witness :
  ∃ b,
    Scenario.run Scenario.features Scenario.targets Scenario.dates
      Scenario.dates 2 = Ok b ∧
    predict_x_buckets b !! 3 = Some [3] ∧
    predict_y_buckets b !! 3 = Some [30].
Proof.
  destruct (predict_bucket_rows identity_processing Scenario.features
              Scenario.targets Scenario.dates Scenario.dates 2 None () ()
              0%nat 1 3)
    as (b & risk & ne_x & Hrun & _ & Hx & _ & Hpx & Hpy).
  - by apply aligned_no_risk.
  - apply identity_preserves_rows.
  - apply NoDup_scenario_dates.
  - lia.
  - reflexivity.
  - reflexivity.
  - exists b. split; [exact Hrun|].
    injection Hx as <-. split; [exact Hpx|].
    injection Hrun as <-. reflexivity.
Defined.

Lemma bucket_counts_and_keys_witness :
  ∃ b,
    Scenario.run Scenario.features Scenario.targets Scenario.dates
      Scenario.dates 1 = Ok b ∧
    size (train_x_buckets b) = 3%nat ∧
    dom (train_x_buckets b) = {[2; 3; 4]}.
Proof.
  destruct (bucket_counts_and_keys identity_processing Scenario.features
              Scenario.targets Scenario.dates Scenario.dates 1 None () ())
    as (b & Hrun & Hn & _ & _ & _ & Hdom & _).
  - by apply aligned_no_risk.
  - apply identity_preserves_rows.
  - apply NoDup_scenario_dates.
  - lia.
  - cbn. lia.
  - exists b. split; [exact Hrun|]. split.
    + cbn in Hn. lia.
    + rewrite Hdom. cbn. set_solver.
Defined.

(** C3, as stated, fails for the batch size 0, which is at most [n]:
    [groups[:-0]] is the empty list, so the loop has no iteration and no
    bucket is stored, where the statement asks for [4 - 0] train buckets
    keyed by all four dates. *)
Lemma batch_zero_stores_nothing :
  NoDup Scenario.dates ∧
  0 <= Z.of_nat (length Scenario.dates) ∧
  Scenario.run Scenario.features Scenario.targets Scenario.dates
    Scenario.dates 0 = Ok (Buckets ∅ ∅ ∅ ∅) ∧
  Z.of_nat (size (train_x_buckets (Buckets (row := Z) ∅ ∅ ∅ ∅)))
    ≠ Z.of_nat (length Scenario.dates) - 0.
Proof.
  split; [apply NoDup_scenario_dates|].
  split; [cbn; lia|]. split; [reflexivity|]. by vm_compute.
Qed.

Lemma predict_target_omitted_or_empty_witness :
  ∃ b,
    Scenario.run [1; 2] [10; 20] [1; 3; 5] [1; 2] 1 = Ok b ∧
    predict_y_buckets b !! 5 = None ∧
    predict_y_buckets b !! 3 = Some [].
Proof.
  assert (aligned (risk_row := Z) [1; 2] [10; 20] [1; 2] None) as Hal
    by (by apply aligned_no_risk).
  assert (NoDup [1; 3; 5]) as Hnd.
  { apply (bool_decide_unpack (NoDup [1; 3; 5])). by vm_compute. }
  destruct (predict_target_omitted_or_empty identity_processing [1; 2]
              [10; 20] [1; 3; 5] [1; 2] 1 None () () 1%nat 3 5 Hal
              identity_preserves_rows Hnd)
    as (b & Hrun & Hnone & _); [lia|reflexivity|reflexivity|].
  destruct (predict_target_omitted_or_empty identity_processing [1; 2]
              [10; 20] [1; 3; 5] [1; 2] 1 None () () 0%nat 1 3 Hal
              identity_preserves_rows Hnd)
    as (b' & Hrun' & _ & Hempty); [lia|reflexivity|reflexivity|].
  exists b. split; [exact Hrun|]. split.
  - apply Hnone. reflexivity.
  - assert (b' = b) as <-.
    { unfold Scenario.run in Hrun. rewrite Hrun in Hrun'.
      by injection Hrun'. }
    apply Hempty.
    + discriminate.
    + change (3 ∉ [2]). rewrite elem_of_cons, elem_of_nil. lia.
Defined.

(** C4, as stated, fails when the predict window has target rows but
    none of them is labelled with the key: with schedule dates 1 and 3
    and rows labelled 1 and 2, the window above 1 and up to 3 holds the
    row labelled 2, line 123 lets it through, and the empty cut
    [ne_y[sub_dates == 3]] is stored under the key 3. *)
Lemma empty_predict_target_stored :
  rows_labelled (λ d, d = 3) [1; 2] [10; 20] = [] ∧
  ∃ b,
    Scenario.run [1; 2] [10; 20] [1; 3] [1; 2] 1 = Ok b ∧
    predict_y_buckets b !! 3 = Some [].
Proof.
  split; [reflexivity|]. eexists. split; reflexivity.
Qed.

Lemma predict_x_never_omitted_witness :
  ∃ b,
    Scenario.run [1; 2] [10; 20] [1; 3; 5] [1; 3] 1 = Ok b ∧
    size (predict_x_buckets b) = 2%nat ∧
    predict_x_buckets b !! 5 = Some [].
Proof.
  destruct (predict_x_never_omitted identity_processing [1; 2] [10; 20]
              [1; 3; 5] [1; 3] 1 None () ())
    as (b & Hrun & Hn & _ & _ & Hempty).
  - by apply aligned_no_risk.
  - apply identity_preserves_rows.
  - apply (bool_decide_unpack (NoDup [1; 3; 5])). by vm_compute.
  - lia.
  - cbn. lia.
  - exists b. split; [exact Hrun|]. split.
    + cbn in Hn. lia.
    + apply Hempty.
      * change (5 ∈ [3; 5]). rewrite !elem_of_cons. tauto.
      * rewrite !elem_of_cons, elem_of_nil. lia.
Defined.

Example scenario_assemble :
  assemble Scenario.factor_panel Scenario.return_panel
    Scenario.industry_panel Scenario.benchmark_panel
  = ([((1, 600000), Num 0.01); ((2, 600000), Num 0.02);
      ((2, 600001), Num 0.03)],
     [((1, 600000),
       Feature.make (Num 0.25) (Some true) (Some 1) (Some "bank") [Num 0.5]);
      ((2, 600000),
       Feature.make (Num 0.25) (Some true) (Some 1) (Some "bank") [Num 0.7]);
      ((2, 600001),
       Feature.make (Num 0) (Some true) (Some 2) (Some "steel") [Num 1.7])]).
Proof. reflexivity. Qed.

Example scenario_prepare_data :
  prepare_data Scenario.makeSchedule Scenario.advanceDateByCalendar
    Scenario.new_Transformer Scenario.engine (inr ())
    "2012-01-01" "2012-04-01" "1m" () 905 0
  = Ok ([1; 2],
        (assemble Scenario.factor_panel Scenario.return_panel
           Scenario.industry_panel Scenario.benchmark_panel).1,
        (assemble Scenario.factor_panel Scenario.return_panel
           Scenario.industry_panel Scenario.benchmark_panel).2).
Proof. reflexivity. Qed.

Lemma fetch_data_package_None_witness :
  fetch_data_package Scenario.makeSchedule Scenario.advanceDateByCalendar
    Scenario.new_Transformer Scenario.factor_processing Scenario.engine
    () "2012-01-01" "2012-04-01" "1m" () 905 0 1 None "short" () ()
  = (["Starting data package fetching ..."],
     Raise (TypeError "'NoneType' object is not iterable")).
Proof.
  destruct (fetch_data_package_None Scenario.makeSchedule
              Scenario.advanceDateByCalendar Scenario.new_Transformer
              Scenario.factor_processing Scenario.engine
              () "2012-01-01" "2012-04-01" "1m" () 905 0 1 "short" () ())
    as (e & Hrun & He).
  rewrite Hrun, He; [reflexivity|].
  eexists. reflexivity.
Defined.

(** With an empty list of risk names instead of [None], the same call
    returns a package. *)
Example fetch_data_package_empty_risk :
  is_Ok (fetch_data_package Scenario.makeSchedule
           Scenario.advanceDateByCalendar Scenario.new_Transformer
           Scenario.factor_processing Scenario.engine
           () "2012-01-01" "2012-04-01" "1m" () 905 0 1 (Some []) "short"
           () ()).2.
Proof. eexists. by vm_compute. Qed.

(** * Further properties of the batching engine *)

Lemma py_index_Raise {A} (l : list A) (k : Z) (e : exception) :
  py_index l k = Raise e → ∃ msg, e = IndexError msg.
Proof.
  unfold py_index. destruct (_ || _); [intros [= <-]; by eexists|].
  destruct (l !! _); [done|]. intros [= <-]. by eexists.
Qed.

Lemma mask_index_Raise {A} (values : list A) (index : list bool)
    (e : exception) :
  mask_index values index = Raise e →
  length index ≠ length values ∧
  e = IndexError "boolean index did not match indexed array".
Proof.
  unfold mask_index. case_bool_decide; [done|]. by intros [= <-].
Qed.

Lemma mask_index_mismatch {A} (values : list A) (index : list bool) :
  length index ≠ length values →
  mask_index values index
  = Raise (IndexError "boolean index did not match indexed array").
Proof. intros H. unfold mask_index. by rewrite bool_decide_eq_false_2. Qed.

Section batch_edges.
Context {row risk_row process : Type}.
Variable factor_processing :
  list row → process → option (list risk_row) → process → result (list row).
Variables (x_values y_values : list row).
Variables (groups group_label : list Z).
Variable batch : Z.
Variable risk_exp : option (list risk_row).
Variables (pre_process post_process : process).

Abbreviation run :=
  (batch_processing factor_processing x_values y_values groups group_label
     batch risk_exp pre_process post_process).
Abbreviation step :=
  (window factor_processing x_values y_values groups group_label batch
     risk_exp pre_process post_process).

Lemma slice_risk_Raise (index : list bool) (e : exception) :
  slice_risk risk_exp index = Raise e →
  (∃ r, risk_exp = Some r ∧ length index ≠ length r) ∧
  e = IndexError "boolean index did not match indexed array".
Proof.
  unfold slice_risk. destruct risk_exp as [r|]; [|done].
  destruct (mask_index r index) eqn:E; [done|]. cbn. intros [= <-].
  apply mask_index_Raise in E as [? ->]. split; [by exists r|done].
Qed.

Abbreviation raised_by_numpy_or_processing' :=
  (raised_by_numpy_or_processing factor_processing pre_process post_process).

Local Ltac raise_step H :=
  lazymatch type of H with
  | mbind _ ?m = Raise _ =>
      let E := fresh "E" in
      destruct m eqn:E; cbn [mbind result_bind] in H;
      [|injection H as <-;
        first
          [ apply py_index_Raise in E as [? ->]; left; by eexists
          | apply mask_index_Raise in E as [_ ->]; left; by eexists
          | apply slice_risk_Raise in E as [_ ->]; left; by eexists
          | right; by eexists _, _ ]]
  | (if ?c then _ else _) = Raise _ => destruct c
  end.

Lemma window_Raise (acc : buckets row) (i : nat) (start : Z)
    (e : exception) :
  step acc i start = Raise e → raised_by_numpy_or_processing' e.
Proof.
  unfold window, raised_by_numpy_or_processing. intros H.
  repeat raise_step H; done.
Qed.
Lemma for_enumerate_window_Raise (l : list Z) (i : nat) (acc : buckets row)
    (e : exception) :
  for_enumerate step i l acc = Raise e → raised_by_numpy_or_processing' e.
Proof.
  revert i acc. induction l as [|start l IH]; intros i acc; [done|].
  cbn. destruct (step acc i start) as [acc'|e'] eqn:E; cbn.
  - apply IH.
  - intros [= <-]. by eapply window_Raise.
Qed.

(** X1: whatever the inputs, an exception that ends [batch_processing] is
    an [IndexError] of numpy's indexing (a schedule index out of range, a
    boolean mask of the wrong length) or an exception that
    [factor_processing] raised itself; the engine adds no other failure. *)
Theorem batch_processing_exceptions (e : exception) :
  batch_processing factor_processing x_values y_values groups group_label
    batch risk_exp pre_process post_process = Raise e →
  raised_by_numpy_or_processing factor_processing pre_process post_process e.
Proof. apply for_enumerate_window_Raise. Qed.

(** X2: with a batch size of 0, or one that is at least the number of
    schedule dates, the loop has no iteration: the four dictionaries come
    back empty and nothing is raised, whatever the arrays are (aligned or
    not) and without a call of [factor_processing]. *)
Theorem batch_processing_no_window :
  batch = 0 ∨ Z.of_nat (length groups) <= batch →
  batch_processing factor_processing x_values y_values groups group_label
    batch risk_exp pre_process post_process = Ok (Buckets ∅ ∅ ∅ ∅).
Proof.
  intros Hb. unfold batch_processing.
  assert (py_slice_to groups (- batch) = []) as ->; [|done].
  unfold py_slice_to.
  destruct (Z.ltb_spec (- batch) 0).
  - replace (Z.to_nat _) with 0%nat by lia. done.
  - replace (Z.to_nat _) with 0%nat by lia. done.
Qed.

Lemma misaligned_raises :
  ¬ aligned x_values y_values group_label risk_exp →
  1 <= batch < Z.of_nat (length groups) →
  batch_processing factor_processing x_values y_values groups group_label
    batch risk_exp pre_process post_process
  = Raise (IndexError "boolean index did not match indexed array").
Proof.
  intros Hna Hb. unfold batch_processing.
  rewrite py_slice_to_neg by lia.
  destruct groups as [|start gs] eqn:Eg; [cbn in Hb; lia|].
  destruct (length (start :: gs) - Z.to_nat batch)%nat as [|m] eqn:Em;
    [cbn in Hb, Em; lia|].
  cbn [take for_enumerate]. rewrite <- Eg.
  destruct (lookup_lt_is_Some_2 groups (Z.to_nat batch)) as [end_ Hend].
  { rewrite Eg. cbn in *. lia. }
  assert (step (Buckets ∅ ∅ ∅ ∅) 0 start
          = Raise (IndexError "boolean index did not match indexed array"))
    as ->; [|done].
  unfold window.
  replace (Z.of_nat 0 + batch) with (Z.of_nat (Z.to_nat batch)) by lia.
  rewrite (py_index_nonneg _ _ _ Hend). cbn [mbind result_bind].
  assert (length (train_index start end_ group_label) = length group_label)
    as Ht by (unfold train_index; by rewrite length_map).
  destruct (decide (length x_values = length group_label)) as [Hx|Hx];
    [|by rewrite (mask_index_mismatch x_values (train_index start end_ group_label)) by lia].
  rewrite (mask_index_Ok x_values (train_index start end_ group_label)) by lia. cbn [mbind result_bind].
  destruct (decide (length y_values = length group_label)) as [Hy|Hy];
    [|by rewrite (mask_index_mismatch y_values (train_index start end_ group_label)) by lia].
  rewrite (mask_index_Ok y_values (train_index start end_ group_label)) by lia. cbn [mbind result_bind].
  destruct risk_exp as [r|] eqn:Er; cbn [slice_risk].
  - destruct (decide (length r = length group_label)) as [Hr|Hr];
      [|by rewrite (mask_index_mismatch r (train_index start end_ group_label)) by lia].
    exfalso. apply Hna. repeat split; try done.
    intros r' [= <-]. done.
  - exfalso. apply Hna. by repeat split.
Qed.

(** X3: when the arrays are not aligned with the label vector (the
    features, the targets or the risk exposures have another number of
    rows) and the schedule has at least one window, the call ends in
    numpy's [IndexError] for a boolean mask of the wrong length. *)
Theorem batch_processing_misaligned :
  ¬ aligned x_values y_values group_label risk_exp →
  1 <= batch < Z.of_nat (length groups) →
  batch_processing factor_processing x_values y_values groups group_label
    batch risk_exp pre_process post_process
  = Raise (IndexError "boolean index did not match indexed array").
Proof. apply misaligned_raises. Qed.
End batch_edges.

(** Cutting twice is cutting once with both tests. *)
Lemma rows_labelled_compose {A} (P Q : Z → Prop) `{!∀ d, Decision (P d)}
    `{!∀ d, Decision (Q d)} (labels : list Z) (values : list A) :
  rows_labelled Q (rows_labelled P labels labels)
    (rows_labelled P labels values)
  = rows_labelled (λ d, P d ∧ Q d) labels values.
Proof.
  unfold rows_labelled. revert values.
  induction labels as [|d labels IH]; intros [|v values]; try done.
  - cbn. by rewrite zip_with_nil_r.
  - specialize (IH values).
    change (zip (d :: labels) (d :: labels)) with ((d, d) :: zip labels labels).
    change (zip (d :: labels) (v :: values))
      with ((d, v) :: zip labels values).
    destruct (decide (P d)) as [HP|HP].
    + rewrite !(filter_cons_True (λ r : Z * _, P r.1)) by done.
      rewrite !fmap_cons.
      cbn [snd zip_with].
      destruct (decide (Q d)) as [HQ|HQ].
      * rewrite (filter_cons_True (λ r : Z * _, Q r.1)) by done.
        rewrite (filter_cons_True (λ r : Z * _, P r.1 ∧ Q r.1)) by done.
        rewrite !fmap_cons. by rewrite IH.
      * rewrite (filter_cons_False (λ r : Z * _, Q r.1)) by done.
        rewrite (filter_cons_False (λ r : Z * _, P r.1 ∧ Q r.1))
          by (cbn; tauto).
        done.
    + rewrite !(filter_cons_False (λ r : Z * _, P r.1)) by done.
      rewrite (filter_cons_False (λ r : Z * _, P r.1 ∧ Q r.1))
        by (cbn; tauto).
      done.
Qed.

Lemma rows_labelled_length {A B} (P : Z → Prop) `{!∀ d, Decision (P d)}
    (labels : list Z) (xs : list A) (ys : list B) :
  length xs = length ys →
  length (rows_labelled P labels xs) = length (rows_labelled P labels ys).
Proof.
  unfold rows_labelled. revert xs ys.
  induction labels as [|d labels IH]; intros [|x xs] [|y ys] Hlen;
    cbn in *; try done.
  destruct (decide (P d)); cbn; auto.
Qed.

Lemma foldl_store_lookup_last {row : Type} (es : list (entry row))
    (acc : buckets row) (j : nat) (e : entry row) :
  es !! j = Some e →
  entry_end e ∉ entry_end <$> drop (S j) es →
  train_x_buckets (foldl store acc es) !! entry_end e
    = Some (entry_train_x e) ∧
  train_y_buckets (foldl store acc es) !! entry_end e
    = Some (entry_train_y e) ∧
  predict_x_buckets (foldl store acc es) !! entry_end e
    = Some (entry_predict_x e) ∧
  predict_y_buckets (foldl store acc es) !! entry_end e
    = match entry_predict_y e with
      | Some py => Some py
      | None => predict_y_buckets (foldl store acc (take j es)) !! entry_end e
      end.
Proof.
  intros Hj Hlast.
  rewrite <- (take_drop_middle es j e Hj) at 1 2 3 4.
  rewrite !foldl_app. cbn [foldl].
  destruct (foldl_store_other (drop (S j) es)
              (store (foldl store acc (take j es)) e) _ Hlast)
    as (-> & -> & -> & ->).
  unfold store; cbn. rewrite !lookup_insert_eq.
  by destruct (entry_predict_y e); rewrite ?lookup_insert_eq.
Qed.

Section batch_content.
Context {row risk_row process : Type}.
Variable factor_processing :
  list row → process → option (list risk_row) → process → result (list row).
Variables (x_values y_values : list row).
Variables (groups group_label : list Z).
Variable batch : Z.
Variable risk_exp : option (list risk_row).
Variables (pre_process post_process : process).

Lemma batch_processing_lookup_last (i : nat) (start end_ : Z) :
  aligned x_values y_values group_label risk_exp →
  preserves_rows factor_processing pre_process post_process →
  1 <= batch →
  groups !! i = Some start →
  groups !! (i + Z.to_nat batch)%nat = Some end_ →
  end_ ∉ drop (S (i + Z.to_nat batch)) groups →
  ∃ b e,
    batch_processing factor_processing x_values y_values groups group_label
      batch risk_exp pre_process post_process = Ok b ∧
    entry_spec factor_processing x_values y_values group_label risk_exp
      pre_process post_process start end_ e ∧
    train_x_buckets b !! end_ = Some (entry_train_x e) ∧
    train_y_buckets b !! end_ = Some (entry_train_y e) ∧
    predict_x_buckets b !! end_ = Some (entry_predict_x e).
Proof.
  intros Hal Hfp Hb Hi Hend Hlast.
  destruct (batch_processing_entries factor_processing x_values y_values
              groups group_label batch risk_exp pre_process post_process
              Hal Hfp Hb) as (es & Hrun & Hkeys & Hall).
  destruct (Hall i start end_ Hi Hend) as (e & He & Hspec).
  exists (foldl store (Buckets ∅ ∅ ∅ ∅) es), e.
  split; [done|]. split; [done|].
  pose proof Hspec as (Hkey & _).
  destruct (foldl_store_lookup_last es (Buckets ∅ ∅ ∅ ∅) i e He)
    as (Htx & Hty & Hpx & _).
  - rewrite fmap_drop, Hkeys, drop_drop, Hkey.
    by replace (Z.to_nat batch + S i)%nat with (S (i + Z.to_nat batch))
      by lia.
  - by rewrite <- Hkey.
Qed.

(** X4: also when schedule dates repeat, a key holds the buckets of the
    last window that ends at it: if the date [end_ = groups[i + batch]]
    does not come again later in the schedule, the train and predict
    feature buckets under [end_] are those of window [i]; windows that
    ended at the same date before have been overwritten. *)
Theorem last_window_wins (i : nat) (start end_ : Z) :
  aligned x_values y_values group_label risk_exp →
  preserves_rows factor_processing pre_process post_process →
  1 <= batch →
  groups !! i = Some start →
  groups !! (i + Z.to_nat batch)%nat = Some end_ →
  end_ ∉ drop (S (i + Z.to_nat batch)) groups →
  ∃ b risk tx risk' ne_x,
    batch_processing factor_processing x_values y_values groups group_label
      batch risk_exp pre_process post_process = Ok b ∧
    slice_risk risk_exp (train_index start end_ group_label) = Ok risk ∧
    factor_processing
      (rows_labelled (λ d, start <= d < end_) group_label x_values)
      pre_process risk post_process = Ok tx ∧
    train_x_buckets b !! end_ = Some tx ∧
    slice_risk risk_exp (predict_index start end_ group_label) = Ok risk' ∧
    factor_processing
      (rows_labelled (λ d, start < d <= end_) group_label x_values)
      pre_process risk' post_process = Ok ne_x ∧
    predict_x_buckets b !! end_
      = Some (rows_labelled (λ d, d = end_)
                (rows_labelled (λ d, start < d <= end_) group_label
                   group_label) ne_x).
Proof.
  intros Hal Hfp Hb Hi Hend Hlast.
  destruct (batch_processing_lookup_last i start end_ Hal Hfp Hb Hi Hend
              Hlast) as (b & e & Hrun & Hspec & Htx & _ & Hpx).
  destruct Hspec as (_ & (risk & Hrisk & Hfx & _) &
                     (risk' & ne_x & Hrisk' & Hnx & _ & Hex & _)).
  rewrite select_train_index in Hfx.
  rewrite select_predict_index in Hnx.
  rewrite select_predict_index, select_label_is in Hex.
  exists b, risk, (entry_train_x e), risk', ne_x.
  repeat split; try done. by rewrite Hpx, Hex.
Qed.

(** X5: the number of rows of a bucket. Under the preconditions, for a
    window from [start] to a later date [end_], the train buckets under
    [end_] have one row per row of the panel labelled from [start] up to,
    not including, [end_], and the predict feature bucket has one row
    per row of the panel labelled [end_]. *)
Theorem bucket_row_counts (i : nat) (start end_ : Z) :
  aligned x_values y_values group_label risk_exp →
  preserves_rows factor_processing pre_process post_process →
  NoDup groups → 1 <= batch →
  groups !! i = Some start →
  groups !! (i + Z.to_nat batch)%nat = Some end_ →
  start < end_ →
  ∃ b tx ty px,
    batch_processing factor_processing x_values y_values groups group_label
      batch risk_exp pre_process post_process = Ok b ∧
    train_x_buckets b !! end_ = Some tx ∧
    train_y_buckets b !! end_ = Some ty ∧
    predict_x_buckets b !! end_ = Some px ∧
    length tx
      = length (rows_labelled (λ d, start <= d < end_) group_label
                  group_label) ∧
    length ty = length tx ∧
    length px = length (rows_labelled (λ d, d = end_) group_label group_label).
Proof.
  intros Hal Hfp Hnd Hb Hi Hend Hlt. pose proof Hal as (Hx & Hy & _).
  destruct (batch_processing_lookup factor_processing x_values y_values
              groups group_label batch risk_exp pre_process post_process
              i start end_ Hal Hfp Hnd Hb Hi Hend)
    as (b & e & Hrun & Hspec & Htx & Hty & Hpx & _).
  destruct Hspec as (_ & (risk & _ & Hfx & Hfy) &
                     (risk' & ne_x & _ & _ & Hlx & Hex & _)).
  exists b, (entry_train_x e), (entry_train_y e), (entry_predict_x e).
  repeat split; try done.
  - destruct (Hfp (select (train_index start end_ group_label) x_values)
                risk) as (out & Hout & Hlen).
    rewrite Hfx in Hout. injection Hout as <-.
    rewrite Hlen, select_train_index. by apply rows_labelled_length.
  - destruct (Hfp (select (train_index start end_ group_label) x_values)
                risk) as (out & Hout & Hlen).
    rewrite Hfx in Hout. injection Hout as <-.
    destruct (Hfp (select (train_index start end_ group_label) y_values)
                risk) as (out' & Hout' & Hlen').
    rewrite Hfy in Hout'. injection Hout' as <-.
    rewrite Hlen, Hlen'. apply select_same_length. congruence.
  - rewrite Hex, select_label_is.
    rewrite (rows_labelled_length _ _ ne_x
               (select (predict_index start end_ group_label) group_label))
      by done.
    rewrite select_predict_index, rows_labelled_compose.
    f_equal. apply rows_labelled_iff. intros d. lia.
Qed.
End batch_content.

Lemma rows_labelled_nonempty {A} (P : Z → Prop) `{!∀ d, Decision (P d)}
    (labels : list Z) (values : list A) (d : Z) :
  length values = length labels → d ∈ labels → P d →
  rows_labelled P labels values ≠ [].
Proof.
  unfold rows_labelled. revert values.
  induction labels as [|x labels IH]; intros [|v values] Hlen Hd HP;
    cbn in *; try done.
  - by apply elem_of_nil in Hd.
  - destruct (decide (P x)); [done|].
    apply elem_of_cons in Hd as [->|Hd]; [done|].
    apply IH; [lia|done..].
Qed.

(** Rows that agree on a window agree on every part of the window. *)
Lemma rows_labelled_restrict {A} (P Q : Z → Prop) `{!∀ d, Decision (P d)}
    `{!∀ d, Decision (Q d)} (labels : list Z) (xs xs' : list A) :
  (∀ d, Q d → P d) →
  rows_labelled P labels xs = rows_labelled P labels xs' →
  rows_labelled Q labels xs = rows_labelled Q labels xs'.
Proof.
  intros HQP Heq.
  rewrite (rows_labelled_iff Q (λ d, P d ∧ Q d) labels xs)
    by (intros d; specialize (HQP d); tauto).
  rewrite (rows_labelled_iff Q (λ d, P d ∧ Q d) labels xs')
    by (intros d; specialize (HQP d); tauto).
  by rewrite <- !rows_labelled_compose, Heq.
Qed.

(** X6: with identity preprocessing the buckets are the raw rows. For a
    window from [start] to a later date [end_], the train buckets under
    [end_] are the rows labelled from [start] up to, not including,
    [end_]; the predict feature bucket is the rows labelled [end_]; and
    when some row is labelled [end_] the predict target bucket is the
    target rows labelled [end_]. *)
Theorem identity_buckets {row : Type} (x_values y_values : list row)
    (groups group_label : list Z) (batch : Z) (risk_exp : option (list row))
    (i : nat) (start end_ : Z) :
  aligned x_values y_values group_label risk_exp →
  NoDup groups → 1 <= batch →
  groups !! i = Some start →
  groups !! (i + Z.to_nat batch)%nat = Some end_ →
  start < end_ →
  ∃ b,
    batch_processing identity_processing x_values y_values groups
      group_label batch risk_exp () () = Ok b ∧
    train_x_buckets b !! end_
      = Some (rows_labelled (λ d, start <= d < end_) group_label x_values) ∧
    train_y_buckets b !! end_
      = Some (rows_labelled (λ d, start <= d < end_) group_label y_values) ∧
    predict_x_buckets b !! end_
      = Some (rows_labelled (λ d, d = end_) group_label x_values) ∧
    (end_ ∈ group_label →
     predict_y_buckets b !! end_
       = Some (rows_labelled (λ d, d = end_) group_label y_values)).
Proof.
  intros Hal Hnd Hb Hi Hend Hlt. pose proof Hal as (Hx & Hy & _).
  destruct (batch_processing_lookup identity_processing x_values y_values
              groups group_label batch risk_exp () () i start end_ Hal
              identity_preserves_rows Hnd Hb Hi Hend)
    as (b & e & Hrun & Hspec & Htx & Hty & Hpx & Hpy).
  destruct Hspec as (_ & (risk & _ & Hfx & Hfy) &
                     (risk' & ne_x & _ & Hnx & _ & Hex & Hey)).
  assert (∀ A (vs : list A),
            rows_labelled (λ d, d = end_)
              (rows_labelled (λ d, start < d <= end_) group_label group_label)
              (rows_labelled (λ d, start < d <= end_) group_label vs)
            = rows_labelled (λ d, d = end_) group_label vs) as Hcut.
  { intros A vs. rewrite rows_labelled_compose.
    apply rows_labelled_iff. intros d. lia. }
  injection Hfx as Hfx. injection Hfy as Hfy. injection Hnx as <-.
  rewrite select_train_index in Hfx, Hfy.
  exists b. split; [done|]. rewrite Htx, Hty, Hpx, Hpy, <- Hfx, <- Hfy, Hex.
  rewrite select_label_is, !select_predict_index, Hcut.
  repeat split. intros Hin.
  destruct (entry_predict_y e) as [py|].
  - destruct Hey as (_ & ne_y & [= <-] & _ & ->).
    by rewrite select_label_is, !select_predict_index, Hcut.
  - rewrite select_predict_index in Hey.
    by apply (rows_labelled_nonempty _ _ _ end_) in Hey; [|done|done|lia].
Qed.

(** X7: no look-ahead. The buckets stored under [end_] for the window
    from [start] depend on the arrays only through the rows labelled from
    [start] to [end_]: two runs whose feature and target arrays agree on
    those rows, whatever the rows with other labels hold, store the same
    four buckets under [end_]. *)
Theorem bucket_depends_on_window_only {row risk_row process : Type}
    (factor_processing :
       list row → process → option (list risk_row) → process →
       result (list row))
    (x_values y_values x_values' y_values' : list row)
    (groups group_label : list Z) (batch : Z)
    (risk_exp : option (list risk_row)) (pre_process post_process : process)
    (i : nat) (start end_ : Z) :
  aligned x_values y_values group_label risk_exp →
  aligned x_values' y_values' group_label risk_exp →
  preserves_rows factor_processing pre_process post_process →
  NoDup groups → 1 <= batch →
  groups !! i = Some start →
  groups !! (i + Z.to_nat batch)%nat = Some end_ →
  rows_labelled (λ d, start <= d <= end_) group_label x_values
    = rows_labelled (λ d, start <= d <= end_) group_label x_values' →
  rows_labelled (λ d, start <= d <= end_) group_label y_values
    = rows_labelled (λ d, start <= d <= end_) group_label y_values' →
  ∃ b b',
    batch_processing factor_processing x_values y_values groups group_label
      batch risk_exp pre_process post_process = Ok b ∧
    batch_processing factor_processing x_values' y_values' groups
      group_label batch risk_exp pre_process post_process = Ok b' ∧
    train_x_buckets b !! end_ = train_x_buckets b' !! end_ ∧
    train_y_buckets b !! end_ = train_y_buckets b' !! end_ ∧
    predict_x_buckets b !! end_ = predict_x_buckets b' !! end_ ∧
    predict_y_buckets b !! end_ = predict_y_buckets b' !! end_.
Proof.
  intros Hal Hal' Hfp Hnd Hb Hi Hend Hxx Hyy.
  destruct (batch_processing_lookup factor_processing x_values y_values
              groups group_label batch risk_exp pre_process post_process
              i start end_ Hal Hfp Hnd Hb Hi Hend)
    as (b & e & Hrun & Hspec & H1 & H2 & H3 & H4).
  destruct (batch_processing_lookup factor_processing x_values' y_values'
              groups group_label batch risk_exp pre_process post_process
              i start end_ Hal' Hfp Hnd Hb Hi Hend)
    as (b' & e' & Hrun' & Hspec' & H1' & H2' & H3' & H4').
  exists b, b'. split; [done|]. split; [done|].
  rewrite H1, H2, H3, H4, H1', H2', H3', H4'.
  destruct Hspec as (_ & (r1 & Hr1 & Hfx & Hfy) &
                     (r2 & ne_x & Hr2 & Hnx & _ & Hex & Hey)).
  destruct Hspec' as (_ & (r1' & Hr1' & Hfx' & Hfy') &
                      (r2' & ne_x' & Hr2' & Hnx' & _ & Hex' & Hey')).
  rewrite Hr1 in Hr1'. injection Hr1' as <-.
  rewrite Hr2 in Hr2'. injection Hr2' as <-.
  assert (∀ vs vs' : list row,
            rows_labelled (λ d, start <= d <= end_) group_label vs
              = rows_labelled (λ d, start <= d <= end_) group_label vs' →
            select (train_index start end_ group_label) vs
              = select (train_index start end_ group_label) vs' ∧
            select (predict_index start end_ group_label) vs
              = select (predict_index start end_ group_label) vs')
    as Hsame.
  { intros vs vs' Heq.
    rewrite !select_train_index, !select_predict_index.
    split;
      (refine (rows_labelled_restrict (λ d, start <= d <= end_) _ _ _ _ _
                 Heq); intros d; cbn; lia). }
  destruct (Hsame _ _ Hxx) as [Htx Hpx].
  destruct (Hsame _ _ Hyy) as [Hty Hpy].
  rewrite Htx in Hfx. rewrite Hty in Hfy. rewrite Hpx in Hnx.
  rewrite Hfx in Hfx'. rewrite Hfy in Hfy'. rewrite Hnx in Hnx'.
  injection Hfx' as ->. injection Hfy' as ->. injection Hnx' as ->.
  rewrite Hex, Hex'. repeat split.
  rewrite Hpy in Hey.
  destruct (entry_predict_y e) as [py|], (entry_predict_y e') as [py'|];
    try done.
  - destruct Hey as (_ & ne_y & Hny & _ & ->).
    destruct Hey' as (_ & ne_y' & Hny' & _ & ->).
    rewrite Hny in Hny'. by injection Hny' as ->.
  - by destruct Hey as (Hne & _).
  - by destruct Hey' as (Hne & _).
Qed.

(** ** Instances on the scenario *)

Lemma batch_processing_exceptions_witness :
  Scenario.run [1] [10; 20] [1; 2] [1; 2] 1
    = Raise (IndexError "boolean index did not match indexed array") ∧
  raised_by_numpy_or_processing (@identity_processing Z) () ()
    (IndexError "boolean index did not match indexed array").
Proof.
  split; [reflexivity|].
  apply (batch_processing_exceptions identity_processing [1] [10; 20]
           [1; 2] [1; 2] 1 None () ()).
  reflexivity.
Defined.

Lemma batch_processing_no_window_witness :
  Scenario.run Scenario.features Scenario.targets Scenario.dates
    Scenario.dates 4 = Ok (Buckets ∅ ∅ ∅ ∅) ∧
  Scenario.run [1] [10; 20] [1; 2] [1; 2] 0 = Ok (Buckets ∅ ∅ ∅ ∅).
Proof.
  split.
  - apply (batch_processing_no_window identity_processing Scenario.features
             Scenario.targets Scenario.dates Scenario.dates 4 None () ()).
    right. cbn. lia.
  - apply (batch_processing_no_window identity_processing [1] [10; 20]
             [1; 2] [1; 2] 0 None () ()).
    by left.
Defined.

Lemma batch_processing_misaligned_witness :
  Scenario.run [1; 2] [10] [1; 2; 3] [1; 2] 1
  = Raise (IndexError "boolean index did not match indexed array").
Proof.
  apply (batch_processing_misaligned identity_processing [1; 2] [10]
           [1; 2; 3] [1; 2] 1 None () ()).
  - intros (_ & Hy & _). cbn in Hy. lia.
  - cbn. lia.
Defined.

Lemma last_window_wins_witness :
  ∃ b,
    Scenario.run [1; 2] [10; 20] [1; 2; 2] [1; 2] 1 = Ok b ∧
    train_x_buckets b !! 2 = Some [] ∧
    predict_x_buckets b !! 2 = Some [].
Proof.
  destruct (last_window_wins identity_processing [1; 2] [10; 20] [1; 2; 2]
              [1; 2] 1 None () () 1%nat 2 2)
    as (b & risk & tx & risk' & ne_x & Hrun & _ & Hx & Htx & _ & Hnx & Hpx).
  - by apply aligned_no_risk.
  - apply identity_preserves_rows.
  - lia.
  - reflexivity.
  - reflexivity.
  - cbn. apply not_elem_of_nil.
  - exists b. split; [exact Hrun|].
    injection Hx as <-. injection Hnx as <-. split; assumption.
Defined.

Lemma bucket_row_counts_witness :
  ∃ b tx px,
    Scenario.run [1; 2; 3; 4; 5] [10; 20; 30; 40; 50] [1; 2; 3]
      [1; 1; 2; 3; 3] 1 = Ok b ∧
    train_x_buckets b !! 3 = Some tx ∧ length tx = 1%nat ∧
    predict_x_buckets b !! 3 = Some px ∧ length px = 2%nat.
Proof.
  destruct (bucket_row_counts identity_processing [1; 2; 3; 4; 5]
              [10; 20; 30; 40; 50] [1; 2; 3] [1; 1; 2; 3; 3] 1 None () ()
              1%nat 2 3)
    as (b & tx & ty & px & Hrun & Htx & _ & Hpx & Hlx & _ & Hlp).
  - by apply aligned_no_risk.
  - apply identity_preserves_rows.
  - apply (bool_decide_unpack (NoDup [1; 2; 3])). by vm_compute.
  - lia.
  - reflexivity.
  - reflexivity.
  - lia.
  - exists b, tx, px. split; [exact Hrun|].
    split; [exact Htx|]. split; [exact Hlx|]. split; [exact Hpx|exact Hlp].
Defined.

Lemma identity_buckets_witness :
  ∃ b,
    Scenario.run [1; 2; 3; 4; 5] [10; 20; 30; 40; 50] [1; 2; 3]
      [1; 1; 2; 3; 3] 1 = Ok b ∧
    train_x_buckets b !! 3 = Some [3] ∧
    predict_x_buckets b !! 3 = Some [4; 5] ∧
    predict_y_buckets b !! 3 = Some [40; 50].
Proof.
  destruct (identity_buckets [1; 2; 3; 4; 5] [10; 20; 30; 40; 50] [1; 2; 3]
              [1; 1; 2; 3; 3] 1 None 1%nat 2 3)
    as (b & Hrun & Htx & _ & Hpx & Hpy).
  - by apply aligned_no_risk.
  - apply (bool_decide_unpack (NoDup [1; 2; 3])). by vm_compute.
  - lia.
  - reflexivity.
  - reflexivity.
  - lia.
  - exists b. split; [exact Hrun|]. split; [exact Htx|].
    split; [exact Hpx|]. apply Hpy.
    rewrite !elem_of_cons. tauto.
Defined.

Lemma bucket_depends_on_window_only_witness :
  ∃ b b',
    Scenario.run [1; 2; 3; 4] [10; 20; 30; 40] Scenario.dates
      Scenario.dates 1 = Ok b ∧
    Scenario.run [1; 2; 77; 99] [10; 20; 0; 0] Scenario.dates
      Scenario.dates 1 = Ok b' ∧
    train_x_buckets b !! 2 = train_x_buckets b' !! 2 ∧
    predict_x_buckets b !! 2 = predict_x_buckets b' !! 2 ∧
    predict_y_buckets b !! 2 = predict_y_buckets b' !! 2.
Proof.
  destruct (bucket_depends_on_window_only identity_processing
              [1; 2; 3; 4] [10; 20; 30; 40] [1; 2; 77; 99] [10; 20; 0; 0]
              Scenario.dates Scenario.dates 1 None () () 0%nat 1 2)
    as (b & b' & Hrun & Hrun' & Htx & _ & Hpx & Hpy).
  - by apply aligned_no_risk.
  - by apply aligned_no_risk.
  - apply identity_preserves_rows.
  - apply NoDup_scenario_dates.
  - lia.
  - reflexivity.
  - reflexivity.
  - reflexivity.
  - reflexivity.
  - exists b, b'. repeat split; assumption.
Defined.

(** * Further properties of the panel assembler *)

Lemma assemble_panel_frame (factor_df : frame Factor.t)
    (return_df : frame cell) (industry_df : frame Industry.t)
    (benchmark_df : frame cell) :
  assemble factor_df return_df industry_df benchmark_df
  = (target_row <$> panel_frame factor_df return_df industry_df benchmark_df,
     feature_row <$> panel_frame factor_df return_df industry_df benchmark_df).
Proof. reflexivity. Qed.

Lemma elem_of_merge_left_2 {A B} (left : frame A) (right : frame B)
    (x : key * (A * option B)) :
  (x.1, x.2.1) ∈ left →
  match x.2.2 with
  | Some b => (x.1, b) ∈ right
  | None => x.1 ∉ right.*1
  end →
  x ∈ merge_left left right.
Proof.
  destruct x as [k [a w]]. cbn. intros Hl Hw.
  unfold merge_left. apply list_elem_of_bind. exists (k, a).
  split; [|done]. cbv beta iota.
  destruct (filter (λ r : key * B, r.1 = k) right) as [|p partners] eqn:E.
  - destruct w as [b|]; [|by apply list_elem_of_singleton].
    assert ((k, b) ∈ filter (λ r : key * B, r.1 = k) right) as Hf
      by (by apply list_elem_of_filter).
    rewrite E in Hf. by apply elem_of_nil in Hf.
  - rewrite <- E. destruct w as [b|].
    + apply list_elem_of_fmap. exists (k, b). split; [done|].
      by apply list_elem_of_filter.
    + exfalso. apply Hw. apply list_elem_of_fmap. exists p.
      assert (p ∈ filter (λ r : key * B, r.1 = k) right) as Hp
        by (rewrite E; left).
      apply list_elem_of_filter in Hp as [Hk Hp]. by split.
Qed.

(** The rows of [df]: one for every combination of a factor row and a
    return row without missing cell, an industry row and, when there is
    one, a benchmark row, all with the same key. *)
Lemma elem_of_panel_frame (factor_df : frame Factor.t)
    (return_df : frame cell) (industry_df : frame Industry.t)
    (benchmark_df : frame cell) (k : key) (p : Panel.t) :
  (k, p) ∈ panel_frame factor_df return_df industry_df benchmark_df ↔
  ∃ f dx w ind,
    (k, f) ∈ factor_df ∧ Factor.hasna f = false ∧
    (k, dx) ∈ return_df ∧ isna dx = false ∧
    (k, ind) ∈ industry_df ∧
    match w with
    | Some c => (k, c) ∈ benchmark_df
    | None => k ∉ benchmark_df.*1
    end ∧
    p = Panel.make dx (fillna 0 (default NaN w)) (Factor.isOpen f)
          (Industry.industry_code ind) (Industry.industry ind)
          (Factor.values f).
Proof.
  unfold panel_frame. split.
  - intros H. apply list_elem_of_fmap in H as (y & Hy & H).
    apply list_elem_of_fmap in H as (z & -> & Hz).
    apply elem_of_merge in Hz as [Hz Hind].
    pose proof (elem_of_merge_left _ _ _ Hz) as [Hj Hw].
    apply list_elem_of_filter in Hj as [Hna Hj].
    apply elem_of_merge in Hj as [Hf Hr].
    destruct z as [k' [[[f dx] w] ind]]. cbn in *.
    injection Hy as -> ->.
    apply orb_false_iff in Hna as [Hnf Hnd].
    by exists f, dx, w, ind.
  - intros (f & dx & w & ind & Hf & Hnf & Hr & Hnd & Hind & Hw & ->).
    apply list_elem_of_fmap.
    exists (k, Panel.make dx (default NaN w) (Factor.isOpen f)
                 (Industry.industry_code ind) (Industry.industry ind)
                 (Factor.values f)).
    split; [done|].
    apply list_elem_of_fmap. exists (k, (((f, dx), w), ind)).
    split; [done|].
    apply elem_of_merge. split; [|done]. cbn.
    apply elem_of_merge_left_2; [|done]. cbn.
    apply list_elem_of_filter. split.
    + cbn. by rewrite Hnf, Hnd.
    + by apply elem_of_merge.
Qed.

(** ** The stable sort *)

Lemma insert_row_Permutation {A} (r : key * A) (df : list (key * A)) :
  insert_row r df ≡ₚ r :: df.
Proof.
  induction df as [|x df IH]; [done|]. cbn.
  case_decide; [done|]. by rewrite IH, Permutation_swap.
Qed.

Lemma sort_values_Permutation {A} (df : list (key * A)) :
  sort_values df ≡ₚ df.
Proof.
  induction df as [|r df IH]; [done|]. cbn.
  by rewrite insert_row_Permutation, IH.
Qed.

Lemma elem_of_sort_values {A} (df : frame A) (r : key * A) :
  r ∈ sort_values df ↔ r ∈ df.
Proof. by rewrite sort_values_Permutation. Qed.

(** Rows with the same key come out in the order they went in. *)
Lemma insert_row_stable {A} (r : key * A) (df : list (key * A)) (k : key) :
  filter (λ x : key * A, x.1 = k) (insert_row r df)
  = filter (λ x : key * A, x.1 = k) (r :: df).
Proof.
  unfold frame. induction df as [|x df IH]; [done|]. cbn [insert_row].
  case_decide as Hle; [done|].
  rewrite filter_cons, IH, !filter_cons.
  destruct (decide (x.1 = k)) as [Hx|Hx], (decide (r.1 = k)) as [Hr|Hr];
    try done.
  exfalso. apply Hle. rewrite Hx, Hr.
  destruct k as [d c]. unfold key_le. cbn. lia.
Qed.

Lemma sort_values_stable {A} (df : list (key * A)) (k : key) :
  filter (λ x : key * A, x.1 = k) (sort_values df)
  = filter (λ x : key * A, x.1 = k) df.
Proof.
  unfold frame. induction df as [|r df IH]; [done|].
  cbn [sort_values foldr]. fold (sort_values df).
  etrans; [apply insert_row_stable|]. unfold frame.
  by rewrite !filter_cons, IH.
Qed.

Lemma hasna_false (f : Factor.t) :
  Factor.hasna f = false ↔
  Factor.isOpen f ≠ None ∧ Forall (λ c, c ≠ NaN) (Factor.values f).
Proof.
  unfold Factor.hasna. rewrite orb_false_iff, bool_decide_eq_false.
  apply and_iff_compat_l. rewrite Forall_forall. split.
  - intros Hex c Hc ->.
    assert (existsb isna (Factor.values f) = true) as Ht; [|congruence].
    apply existsb_exists. exists NaN. split; [|done].
    by apply list_elem_of_In.
  - intros Hall. destruct (existsb isna (Factor.values f)) eqn:E; [|done].
    apply existsb_exists in E as (c & Hc & Hna).
    destruct c; [|done]. exfalso. apply (Hall NaN); [|done].
    by apply list_elem_of_In.
Qed.

(** ** Order and uniqueness of the keys through the joins *)

#[local] Instance key_le_refl : Reflexive key_le.
Proof. intros [d c]. unfold key_le. cbn. lia. Qed.

#[local] Instance key_le_trans : Transitive key_le.
Proof. intros [d1 c1] [d2 c2] [d3 c3]. unfold key_le. cbn. lia. Qed.

#[local] Instance key_le_total : Total key_le.
Proof. intros [d1 c1] [d2 c2]. unfold key_le. cbn. lia. Qed.

Lemma insert_row_sorted {A} (r : key * A) (df : list (key * A)) :
  StronglySorted key_le df.*1 → StronglySorted key_le (insert_row r df).*1.
Proof.
  induction df as [|x df IH]; intros Hs; cbn.
  - by repeat constructor.
  - apply StronglySorted_cons in Hs as [Hall Hs].
    case_decide as Hle; cbn.
    + constructor; [by constructor|]. constructor; [done|].
      eapply Forall_impl; [exact Hall|]. intros k Hk. by etrans.
    + constructor; [by apply IH|].
      rewrite Forall_forall. intros k Hk.
      assert (k ∈ (r :: df).*1) as Hk'
        by (by rewrite <- (insert_row_Permutation r df)).
      rewrite fmap_cons in Hk'. apply elem_of_cons in Hk' as [->|Hk'].
      * by destruct (key_le_total r.1 x.1).
      * rewrite Forall_forall in Hall. by apply Hall.
Qed.

Lemma sort_values_sorted {A} (df : frame A) :
  StronglySorted key_le (sort_values df).*1.
Proof.
  induction df as [|r df IH]; [constructor|].
  cbn [sort_values foldr]. by apply insert_row_sorted.
Qed.

Lemma sort_values_keys {A} (df : frame A) : (sort_values df).*1 ≡ₚ df.*1.
Proof. by rewrite sort_values_Permutation. Qed.

Lemma keys_bind_elem_of {A B} (g : key * A → list (key * B))
    (l : list (key * A))
    (k : key) :
  (∀ x y, y ∈ g x → y.1 = x.1) → k ∈ (l ≫= g).*1 → k ∈ l.*1.
Proof.
  intros Hg Hk. apply list_elem_of_fmap in Hk as (y & -> & Hy).
  apply list_elem_of_bind in Hy as (x & Hy & Hx).
  rewrite (Hg x y Hy). apply list_elem_of_fmap. by exists x.
Qed.

(** A step that turns each row into rows with the same key keeps the
    frame sorted. *)
Lemma keys_bind_sorted {A B} (g : key * A → list (key * B))
    (l : list (key * A)) :
  (∀ x y, y ∈ g x → y.1 = x.1) →
  StronglySorted key_le l.*1 → StronglySorted key_le (l ≫= g).*1.
Proof.
  intros Hg. induction l as [|x l IH]; [done|].
  rewrite fmap_cons, bind_cons, fmap_app.
  intros [Hall Hs]%StronglySorted_cons.
  apply StronglySorted_app_2; [| |by apply IH].
  - intros k1 k2 Hk1 Hk2.
    apply list_elem_of_fmap in Hk1 as (y & -> & Hy).
    rewrite (Hg x y Hy).
    apply (keys_bind_elem_of g l k2 Hg) in Hk2.
    rewrite Forall_forall in Hall. by apply Hall.
  - assert (Forall (λ k, k = x.1) (g x).*1) as Hsame.
    { apply Forall_forall. intros k Hk.
      apply list_elem_of_fmap in Hk as (y & -> & Hy). by apply Hg. }
    induction Hsame as [|k ks -> Hks IHks]; constructor; [done|].
    eapply Forall_impl; [exact Hks|]. by intros k ->.
Qed.

(** A step that turns each row into at most one row with the same key
    keeps the keys distinct. *)
Lemma keys_bind_NoDup {A B} (g : key * A → list (key * B))
    (l : list (key * A)) :
  (∀ x y, y ∈ g x → y.1 = x.1) →
  (∀ x, x ∈ l → (length (g x) <= 1)%nat) →
  NoDup l.*1 → NoDup (l ≫= g).*1.
Proof.
  intros Hg. induction l as [|x l IH]; intros Hone; [done|].
  rewrite fmap_cons, bind_cons, fmap_app.
  intros [Hx Hnd]%NoDup_cons. apply NoDup_app. split; [|split].
  - specialize (Hone x (list_elem_of_here _ _)).
    destruct (g x) as [|y [|y' ys]]; cbn in *; [constructor| |lia].
    apply NoDup_singleton.
  - intros k Hk1 Hk2.
    apply list_elem_of_fmap in Hk1 as (y & -> & Hy).
    rewrite (Hg x y Hy) in Hk2.
    by apply (keys_bind_elem_of g l _ Hg) in Hk2.
  - apply IH; [|done]. intros x' Hx'. apply Hone. by right.
Qed.

Lemma filter_as_bind {A} (P : A → Prop) `{!∀ x, Decision (P x)}
    (l : list A) :
  filter P l = l ≫= (λ x, if decide (P x) then [x] else []).
Proof.
  induction l as [|x l IH]; [done|].
  rewrite filter_cons, bind_cons, IH. by destruct (decide (P x)).
Qed.

Lemma merge_row_keys {A B} (right : list (key * B)) (k : key) (a : A)
    (y : key * (A * B)) :
  y ∈ (right ≫= (λ '(k', b),
         if bool_decide (k = k') then [(k, (a, b))] else [])) →
  y.1 = k.
Proof.
  intros ([k' b] & Hy & _)%list_elem_of_bind.
  case_bool_decide; [|by apply elem_of_nil in Hy].
  by apply list_elem_of_singleton in Hy as ->.
Qed.

Lemma merge_row_unique {A B} (right : list (key * B)) (k : key) (a : A) :
  NoDup right.*1 →
  (length (right ≫= (λ '(k', b),
     if bool_decide (k = k') then [(k, (a, b))] else []))
   <= 1)%nat.
Proof.
  induction right as [|[k' b] right IH]; [cbn; lia|].
  rewrite fmap_cons, bind_cons, length_app.
  intros [Hfresh Hnd]%NoDup_cons. specialize (IH Hnd).
  case_bool_decide as Hk; cbn [length]; [|lia].
  subst k'. cbn in Hfresh.
  destruct (right ≫= _) as [|y ys] eqn:E; [cbn; lia|].
  exfalso. apply Hfresh.
  assert (y ∈ y :: ys) as Hy by left. rewrite <- E in Hy.
  pose proof (merge_row_keys right k a y Hy) as Hyk.
  apply list_elem_of_bind in Hy as ([k' b'] & Hy & Hin).
  case_bool_decide as Hk; [|by apply elem_of_nil in Hy]. subst k'.
  apply list_elem_of_fmap. by exists (k, b').
Qed.

Lemma merge_left_row_keys {A B} (right : list (key * B)) (k : key) (a : A)
    (y : key * (A * option B)) :
  y ∈ match filter (λ r : key * B, r.1 = k) right with
      | [] => [(k, (a, None))]
      | partners => (λ r, (k, (a, Some r.2))) <$> partners
      end →
  y.1 = k.
Proof.
  destruct (filter _ right) as [|p ps].
  - by intros ->%list_elem_of_singleton.
  - by intros (r & -> & _)%list_elem_of_fmap.
Qed.

Lemma filter_key_unique {B} (right : frame B) (k : key) :
  NoDup right.*1 →
  (length (filter (λ r : key * B, r.1 = k) right) <= 1)%nat.
Proof.
  induction right as [|[k' b] right IH]; [cbn; lia|].
  rewrite fmap_cons. intros [Hfresh Hnd]%NoDup_cons. specialize (IH Hnd).
  cbn in *. case_decide as Hk; [|done].
  subst k'. destruct (filter _ right) as [|y ys] eqn:E; [cbn; lia|].
  exfalso. apply Hfresh.
  pose proof (list_elem_of_here y ys) as Hy. rewrite <- E in Hy.
  apply list_elem_of_filter in Hy as [Hk Hy].
  apply list_elem_of_fmap. by exists y.
Qed.

Lemma merge_sorted {A B} (left : frame A) (right : frame B) :
  StronglySorted key_le left.*1 →
  StronglySorted key_le (merge left right).*1.
Proof.
  apply keys_bind_sorted. intros [k a] y. apply merge_row_keys.
Qed.

Lemma merge_NoDup {A B} (left : frame A) (right : frame B) :
  NoDup left.*1 → NoDup right.*1 → NoDup (merge left right).*1.
Proof.
  intros Hl Hr. apply keys_bind_NoDup; [| |done].
  - intros [k a] y. apply merge_row_keys.
  - intros [k a] _. by apply merge_row_unique.
Qed.

Lemma merge_left_sorted {A B} (left : frame A) (right : frame B) :
  StronglySorted key_le left.*1 →
  StronglySorted key_le (merge_left left right).*1.
Proof.
  apply keys_bind_sorted. intros [k a] y. apply merge_left_row_keys.
Qed.

Lemma merge_left_NoDup {A B} (left : frame A) (right : frame B) :
  NoDup left.*1 → NoDup right.*1 → NoDup (merge_left left right).*1.
Proof.
  intros Hl Hr. apply keys_bind_NoDup; [| |done].
  - intros [k a] y. apply merge_left_row_keys.
  - intros [k a] _. pose proof (filter_key_unique right k Hr) as Hlen.
    destruct (filter _ right) as [|p ps]; [cbn; lia|].
    by rewrite length_fmap.
Qed.

Lemma dropna_sorted {A} (hasna : A → bool) (df : frame A) :
  StronglySorted key_le df.*1 → StronglySorted key_le (dropna hasna df).*1.
Proof.
  unfold dropna.
  rewrite (filter_as_bind (λ r : key * A, hasna r.2 = false) df).
  apply keys_bind_sorted.
  intros x y. case_decide; [|by intros ?%elem_of_nil].
  by intros ->%list_elem_of_singleton.
Qed.

Lemma dropna_NoDup {A} (hasna : A → bool) (df : frame A) :
  NoDup df.*1 → NoDup (dropna hasna df).*1.
Proof.
  unfold dropna.
  rewrite (filter_as_bind (λ r : key * A, hasna r.2 = false) df).
  apply keys_bind_NoDup.
  - intros x y. case_decide; [|by intros ?%elem_of_nil].
    by intros ->%list_elem_of_singleton.
  - intros x _. case_decide; cbn; lia.
Qed.

Lemma panel_frame_keys (factor_df : frame Factor.t) (return_df : frame cell)
    (industry_df : frame Industry.t) (benchmark_df : frame cell) :
  (panel_frame factor_df return_df industry_df benchmark_df).*1
  = (merge
       (merge_left
          (dropna (λ r, Factor.hasna r.1 || isna r.2)
             (merge factor_df return_df))
          benchmark_df)
       industry_df).*1.
Proof.
  unfold panel_frame. rewrite <- !list_fmap_compose.
  apply list_fmap_ext. by intros _ [k [[[f dx] w] ind]] _.
Qed.

Lemma panel_frame_sorted (factor_df : frame Factor.t)
    (return_df : frame cell) (industry_df : frame Industry.t)
    (benchmark_df : frame cell) :
  StronglySorted key_le factor_df.*1 →
  StronglySorted key_le
    (panel_frame factor_df return_df industry_df benchmark_df).*1.
Proof.
  intros Hs. rewrite panel_frame_keys.
  by apply merge_sorted, merge_left_sorted, dropna_sorted, merge_sorted.
Qed.

Lemma panel_frame_NoDup (factor_df : frame Factor.t)
    (return_df : frame cell) (industry_df : frame Industry.t)
    (benchmark_df : frame cell) :
  NoDup factor_df.*1 → NoDup return_df.*1 → NoDup industry_df.*1 →
  NoDup benchmark_df.*1 →
  NoDup (panel_frame factor_df return_df industry_df benchmark_df).*1.
Proof.
  intros Hf Hr Hi Hb. rewrite panel_frame_keys.
  apply merge_NoDup; [|done]. apply merge_left_NoDup; [|done].
  by apply dropna_NoDup, merge_NoDup.
Qed.

Section pipeline_more.
Context {Universe Factors process : Type}.
Variable makeSchedule : string → string → string → result (list Z).
Variable advanceDateByCalendar : string → string → string → result string.
Variable new_Transformer : Factors → Transformer.
Variable factor_processing :
  list (list cell) → process → option (list (list cell)) → process →
  result (list (list cell)).

(** The two frames of [prepare_data] are the projections of one frame,
    built from the panels that the engine delivered. *)
Lemma prepare_data_panel_frame (engine : SqlEngine Universe)
    (factors : Transformer + Factors)
    (start_date end_date frequency : string) (universe : Universe)
    (benchmark warm_start : Z) (dates : list Z) (target : frame cell)
    (features : frame Feature.t) :
  prepare_data makeSchedule advanceDateByCalendar new_Transformer engine
    factors start_date end_date frequency universe benchmark warm_start
  = Ok (dates, target, features) →
  ∃ transformer horizon factor_df return_df industry_df benchmark_df,
    _map_horizon frequency = Ok horizon ∧
    fetch_factor_range engine universe transformer dates = Ok factor_df ∧
    fetch_dx_return_range engine universe dates horizon = Ok return_df ∧
    fetch_industry_range engine universe dates = Ok industry_df ∧
    fetch_benchmark_range engine benchmark dates = Ok benchmark_df ∧
    target = target_row <$>
      panel_frame (sort_values factor_df) return_df industry_df
        benchmark_df ∧
    features = feature_row <$>
      panel_frame (sort_values factor_df) return_df industry_df
        benchmark_df.
Proof.
  intros Hrun.
  destruct (prepare_data_assemble _ _ _ _ _ _ _ _ _ _ _ _ _ _ Hrun)
    as (transformer & horizon & factor_df & return_df & industry_df &
        benchmark_df & Hh & Hf & Hr & Hi & Hb & Hasm).
  rewrite assemble_panel_frame in Hasm. injection Hasm as -> ->.
  by exists transformer, horizon, factor_df, return_df, industry_df,
    benchmark_df.
Qed.

(** C7: in the two frames that the panel assembler returns, a (date,
    instrument) key that is in the factor panel but not in the
    forward-return panel never appears. A row that survives the joins (a
    factor row and a forward return without missing cell, and an industry
    row, under one key) appears in both frames: with the weight 0 when
    the benchmark-weight panel lacks its key, and with the weight of the
    benchmark row, 0 in place of a missing one, when it has the key. A
    row of the feature frame whose key the benchmark panel lacks carries
    the weight 0, and no row carries a missing weight. *)
Theorem prepare_data_rows (engine : SqlEngine Universe)
    (factors : Transformer + Factors)
    (start_date end_date frequency : string) (universe : Universe)
    (benchmark warm_start : Z) (dates : list Z) (target : frame cell)
    (features : frame Feature.t) :
  prepare_data makeSchedule advanceDateByCalendar new_Transformer engine
    factors start_date end_date frequency universe benchmark warm_start
  = Ok (dates, target, features) →
  ∃ transformer horizon factor_df return_df industry_df benchmark_df,
    _map_horizon frequency = Ok horizon ∧
    fetch_factor_range engine universe transformer dates = Ok factor_df ∧
    fetch_dx_return_range engine universe dates horizon = Ok return_df ∧
    fetch_industry_range engine universe dates = Ok industry_df ∧
    fetch_benchmark_range engine benchmark dates = Ok benchmark_df ∧
    (∀ k, k ∈ factor_df.*1 → k ∉ return_df.*1 →
          (k ∉ target.*1) ∧ (k ∉ features.*1)) ∧
    (∀ k f dx ind,
       (k, f) ∈ factor_df → Factor.hasna f = false →
       (k, dx) ∈ return_df → isna dx = false →
       (k, ind) ∈ industry_df →
       (k ∉ benchmark_df.*1 →
        (k, dx) ∈ target ∧
        (k, Feature.make (Num 0) (Factor.isOpen f)
              (Industry.industry_code ind) (Industry.industry ind)
              (Factor.values f)) ∈ features) ∧
       (∀ w, (k, w) ∈ benchmark_df →
        (k, dx) ∈ target ∧
        (k, Feature.make (fillna 0 w) (Factor.isOpen f)
              (Industry.industry_code ind) (Industry.industry ind)
              (Factor.values f)) ∈ features)) ∧
    (∀ k f, (k, f) ∈ features → k ∉ benchmark_df.*1 →
            Feature.weight f = Num 0) ∧
    (∀ k f, (k, f) ∈ features → Feature.weight f ≠ NaN).
Proof.
  intros Hrun.
  destruct (prepare_data_panel_frame _ _ _ _ _ _ _ _ _ _ _ Hrun)
    as (tr & h & fd & rd & ind & bd & Hh & Hf & Hr & Hi & Hb & -> & ->).
  exists tr, h, fd, rd, ind, bd.
  do 5 (split; [done|]).
  assert (∀ k (p : Panel.t),
            (k, p) ∈ panel_frame (sort_values fd) rd ind bd →
            (k, Panel.dx p) ∈ target_row <$>
              panel_frame (sort_values fd) rd ind bd ∧
            (k, Feature.make (Panel.weight p) (Panel.isOpen p)
                  (Panel.industry_code p) (Panel.industry p)
                  (Panel.factors p)) ∈ feature_row <$>
              panel_frame (sort_values fd) rd ind bd) as Hboth.
  { intros k p Hp. split; apply list_elem_of_fmap; by exists (k, p). }
  split; [|split; [|split]].
  - intros k _ Hno. split.
    + intros Hin. apply list_elem_of_fmap in Hin as ([k' dx] & -> & Hin).
      apply list_elem_of_fmap in Hin as ([k'' p] & [= -> ->] & Hp).
      apply elem_of_panel_frame in Hp
        as (f & dx & w & i & _ & _ & Hdx & _).
      apply Hno. apply list_elem_of_fmap. by exists (k'', dx).
    + intros Hin. apply list_elem_of_fmap in Hin as ([k' ft] & -> & Hin).
      apply list_elem_of_fmap in Hin as ([k'' p] & [= -> ->] & Hp).
      apply elem_of_panel_frame in Hp
        as (f & dx & w & i & _ & _ & Hdx & _).
      apply Hno. apply list_elem_of_fmap. by exists (k'', dx).
  - intros k f dx i Hfr Hnf Hdx Hnd Hind. split.
    + intros Hno.
      apply (Hboth k (Panel.make dx (Num 0) (Factor.isOpen f)
                        (Industry.industry_code i) (Industry.industry i)
                        (Factor.values f))).
      apply elem_of_panel_frame. exists f, dx, None, i.
      rewrite elem_of_sort_values. by repeat split.
    + intros w Hw.
      apply (Hboth k (Panel.make dx (fillna 0 w) (Factor.isOpen f)
                        (Industry.industry_code i) (Industry.industry i)
                        (Factor.values f))).
      apply elem_of_panel_frame. exists f, dx, (Some w), i.
      rewrite elem_of_sort_values. by repeat split.
  - intros k ft Hin Hno.
    apply list_elem_of_fmap in Hin as ([k' p] & [= -> ->] & Hp).
    apply elem_of_panel_frame in Hp
      as (f & dx & w & i & _ & _ & _ & _ & _ & Hw & ->).
    cbn. destruct w as [c|]; [|done].
    exfalso. apply Hno. apply list_elem_of_fmap. by exists (k', c).
  - intros k ft Hin.
    apply list_elem_of_fmap in Hin as ([k' p] & [= -> ->] & Hp).
    apply elem_of_panel_frame in Hp
      as (f & dx & w & i & _ & _ & _ & _ & _ & _ & ->).
    cbn. by destruct w as [[|c]|].
Qed.

(** X8: the two frames that [prepare_data] returns are aligned row by
    row: they have the same (date, instrument) keys in the same order,
    and so the same number of rows. *)
Theorem prepare_data_aligned (engine : SqlEngine Universe)
    (factors : Transformer + Factors)
    (start_date end_date frequency : string) (universe : Universe)
    (benchmark warm_start : Z) (dates : list Z) (target : frame cell)
    (features : frame Feature.t) :
  prepare_data makeSchedule advanceDateByCalendar new_Transformer engine
    factors start_date end_date frequency universe benchmark warm_start
  = Ok (dates, target, features) →
  target.*1 = features.*1 ∧ length target = length features.
Proof.
  intros Hrun.
  destruct (prepare_data_panel_frame _ _ _ _ _ _ _ _ _ _ _ Hrun)
    as (_ & _ & f & r & i & b & _ & _ & _ & _ & _ & -> & ->).
  rewrite <- !list_fmap_compose, !length_fmap. split; [|done].
  by apply list_fmap_ext.
Qed.

(** X9: no missing value survives in the frames of [prepare_data]: every
    target row has a forward return, and every feature row has its
    tradability flag and a value for every factor. *)
Theorem prepare_data_complete (engine : SqlEngine Universe)
    (factors : Transformer + Factors)
    (start_date end_date frequency : string) (universe : Universe)
    (benchmark warm_start : Z) (dates : list Z) (target : frame cell)
    (features : frame Feature.t) :
  prepare_data makeSchedule advanceDateByCalendar new_Transformer engine
    factors start_date end_date frequency universe benchmark warm_start
  = Ok (dates, target, features) →
  (∀ k dx, (k, dx) ∈ target → dx ≠ NaN) ∧
  (∀ k f, (k, f) ∈ features →
     Feature.isOpen f ≠ None ∧ Forall (λ c, c ≠ NaN) (Feature.factors f)).
Proof.
  intros Hrun.
  destruct (prepare_data_panel_frame _ _ _ _ _ _ _ _ _ _ _ Hrun)
    as (_ & _ & f & r & i & b & _ & _ & _ & _ & _ & -> & ->).
  split.
  - intros k dx Hin. apply list_elem_of_fmap in Hin as ([k' p] & [= -> ->] & Hp).
    apply elem_of_panel_frame in Hp
      as (fr & dx & w & ind & _ & _ & _ & Hnd & _ & _ & ->).
    cbn. by destruct dx.
  - intros k ft Hin.
    apply list_elem_of_fmap in Hin as ([k' p] & [= -> ->] & Hp).
    apply elem_of_panel_frame in Hp
      as (fr & dx & w & ind & _ & Hnf & _ & _ & _ & _ & ->).
    cbn. by apply hasna_false.
Qed.

(** X10: which keys reach the frames of [prepare_data]: exactly the
    (date, instrument) keys that have a factor row without missing cell,
    a forward return that is not missing, and an industry row; the
    benchmark panel never decides whether a row is kept. *)
Theorem prepare_data_keys (engine : SqlEngine Universe)
    (factors : Transformer + Factors)
    (start_date end_date frequency : string) (universe : Universe)
    (benchmark warm_start : Z) (dates : list Z) (target : frame cell)
    (features : frame Feature.t) :
  prepare_data makeSchedule advanceDateByCalendar new_Transformer engine
    factors start_date end_date frequency universe benchmark warm_start
  = Ok (dates, target, features) →
  ∃ transformer horizon factor_df return_df industry_df,
    _map_horizon frequency = Ok horizon ∧
    fetch_factor_range engine universe transformer dates = Ok factor_df ∧
    fetch_dx_return_range engine universe dates horizon = Ok return_df ∧
    fetch_industry_range engine universe dates = Ok industry_df ∧
    ∀ k,
      k ∈ features.*1 ↔
      ∃ f dx ind,
        (k, f) ∈ factor_df ∧ Factor.hasna f = false ∧
        (k, dx) ∈ return_df ∧ isna dx = false ∧
        (k, ind) ∈ industry_df.
Proof.
  intros Hrun.
  destruct (prepare_data_panel_frame _ _ _ _ _ _ _ _ _ _ _ Hrun)
    as (tr & h & f & r & i & b & Hh & Hf & Hr & Hi & _ & -> & ->).
  exists tr, h, f, r, i. repeat split; try done.
  - intros Hin. apply list_elem_of_fmap in Hin as ([k' ft] & -> & Hin).
    apply list_elem_of_fmap in Hin as ([k'' p] & [= -> ->] & Hp).
    apply elem_of_panel_frame in Hp
      as (fr & dx & w & ind & Hfr & Hnf & Hdx & Hnd & Hind & _ & _).
    rewrite elem_of_sort_values in Hfr. cbn. by exists fr, dx, ind.
  - intros (fr & dx & ind & Hfr & Hnf & Hdx & Hnd & Hind).
    apply list_elem_of_fmap.
    destruct (decide (k ∈ b.*1)) as [Hb|Hb].
    + apply list_elem_of_fmap in Hb as ([k' c] & -> & Hc).
      eexists (_, _). split; [reflexivity|].
      apply list_elem_of_fmap. eexists (_, _). split; [reflexivity|].
      apply elem_of_panel_frame.
      exists fr, dx, (Some c), ind. cbn in *.
      rewrite elem_of_sort_values. by repeat split.
    + eexists (_, _). split; [reflexivity|].
      apply list_elem_of_fmap. eexists (_, _). split; [reflexivity|].
      apply elem_of_panel_frame.
      exists fr, dx, None, ind.
      rewrite elem_of_sort_values. by repeat split.
Qed.

(** X11: the frames of [prepare_data] are sorted: their keys are in
    non-decreasing (date, instrument) order, so the trade dates never go
    back from one row to the next. *)
Theorem prepare_data_sorted (engine : SqlEngine Universe)
    (factors : Transformer + Factors)
    (start_date end_date frequency : string) (universe : Universe)
    (benchmark warm_start : Z) (dates : list Z) (target : frame cell)
    (features : frame Feature.t) :
  prepare_data makeSchedule advanceDateByCalendar new_Transformer engine
    factors start_date end_date frequency universe benchmark warm_start
  = Ok (dates, target, features) →
  StronglySorted key_le features.*1 ∧
  StronglySorted Z.le (trade_date <$> features.*1).
Proof.
  intros Hrun.
  destruct (prepare_data_panel_frame _ _ _ _ _ _ _ _ _ _ _ Hrun)
    as (_ & _ & f & r & i & b & _ & _ & _ & _ & _ & _ & ->).
  assert (StronglySorted key_le
            (feature_row <$> panel_frame (sort_values f) r i b).*1) as Hs.
  { rewrite <- list_fmap_compose.
    rewrite (list_fmap_ext (fst ∘ feature_row) fst) by done.
    apply panel_frame_sorted, sort_values_sorted. }
  split; [done|].
  apply (StronglySorted_fmap trade_date key_le); [|done].
  intros [d1 c1] [d2 c2]. unfold key_le, trade_date. cbn. lia.
Qed.

(** X12: when each of the four panels has at most one row per (date,
    instrument) key, so have the two frames of [prepare_data]. *)
Theorem prepare_data_unique_keys (engine : SqlEngine Universe)
    (factors : Transformer + Factors)
    (start_date end_date frequency : string) (universe : Universe)
    (benchmark warm_start : Z) (dates : list Z) (target : frame cell)
    (features : frame Feature.t) :
  prepare_data makeSchedule advanceDateByCalendar new_Transformer engine
    factors start_date end_date frequency universe benchmark warm_start
  = Ok (dates, target, features) →
  ∃ transformer horizon factor_df return_df industry_df benchmark_df,
    _map_horizon frequency = Ok horizon ∧
    fetch_factor_range engine universe transformer dates = Ok factor_df ∧
    fetch_dx_return_range engine universe dates horizon = Ok return_df ∧
    fetch_industry_range engine universe dates = Ok industry_df ∧
    fetch_benchmark_range engine benchmark dates = Ok benchmark_df ∧
    (NoDup factor_df.*1 → NoDup return_df.*1 → NoDup industry_df.*1 →
     NoDup benchmark_df.*1 →
     NoDup target.*1 ∧ NoDup features.*1).
Proof.
  intros Hrun.
  destruct (prepare_data_panel_frame _ _ _ _ _ _ _ _ _ _ _ Hrun)
    as (tr & h & f & r & i & b & Hh & Hf & Hr & Hi & Hb & -> & ->).
  exists tr, h, f, r, i, b. repeat split; try done.
  - rewrite <- list_fmap_compose.
    rewrite (list_fmap_ext (fst ∘ target_row) fst) by done.
    apply panel_frame_NoDup; try done. by rewrite sort_values_keys.
  - rewrite <- list_fmap_compose.
    rewrite (list_fmap_ext (fst ∘ feature_row) fst) by done.
    apply panel_frame_NoDup; try done. by rewrite sort_values_keys.
Qed.

Lemma map_horizon_Raise (frequency : string) (p : Period.t) :
  Period_parse frequency = Some p → ¬ recognized (Period.units p) →
  _map_horizon frequency
  = Raise (ValueError (frequency ++ " is an unrecognized frequency rule")).
Proof.
  intros Hp Hu. unfold _map_horizon. rewrite Hp.
  unfold horizon_of_period, recognized in *.
  destruct (Period.units p); cbn; try done; exfalso; apply Hu; tauto.
Qed.

(** X13: a frequency with a unit that [_map_horizon] does not know ends
    the whole pipeline. Without warm start and with a schedule that could
    be built, [fetch_data_package] ends in the [ValueError] of
    [_map_horizon], whatever the risk names are, after the first log line
    only and before any panel is fetched. *)
Theorem fetch_data_package_bad_frequency (engine : SqlEngine Universe)
    (alpha_factors : Factors) (start_date end_date frequency : string)
    (universe : Universe) (benchmark warm_start batch : Z)
    (neutralized_risk : option (list string)) (risk_model : string)
    (pre_process post_process : process) (dates : list Z) (p : Period.t) :
  warm_start <= 0 →
  makeSchedule start_date end_date frequency = Ok dates →
  Period_parse frequency = Some p → ¬ recognized (Period.units p) →
  fetch_data_package makeSchedule advanceDateByCalendar new_Transformer
    factor_processing engine alpha_factors start_date end_date frequency
    universe benchmark warm_start batch neutralized_risk risk_model
    pre_process post_process
  = (["Starting data package fetching ..."],
     Raise (ValueError (frequency ++ " is an unrecognized frequency rule"))).
Proof.
  intros Hw Hs Hp Hu.
  unfold fetch_data_package, load_package, prepare_data.
  destruct (Z.ltb_spec 0 warm_start) as [?|_]; [lia|].
  cbn [mbind result_bind]. rewrite Hs. cbn [mbind result_bind].
  by rewrite (map_horizon_Raise _ _ Hp Hu).
Qed.
End pipeline_more.

(** ** The schedule that the orchestrator builds *)





(** ** Non-empty predict buckets *)

Section batch_nonempty.
Context {row risk_row process : Type}.
Variable factor_processing :
  list row → process → option (list risk_row) → process → result (list row).
Variables (x_values y_values : list row).
Variables (groups group_label : list Z).
Variable batch : Z.
Variable risk_exp : option (list risk_row).
Variables (pre_process post_process : process).

Lemma predict_buckets_nonempty_at (i : nat) (start end_ : Z) :
  aligned x_values y_values group_label risk_exp →
  preserves_rows factor_processing pre_process post_process →
  NoDup groups → 1 <= batch →
  groups !! i = Some start →
  groups !! (i + Z.to_nat batch)%nat = Some end_ →
  start < end_ → end_ ∈ group_label →
  ∃ b px py,
    batch_processing factor_processing x_values y_values groups group_label
      batch risk_exp pre_process post_process = Ok b ∧
    predict_x_buckets b !! end_ = Some px ∧ px ≠ [] ∧
    predict_y_buckets b !! end_ = Some py ∧ py ≠ [].
Proof.
  intros Hal Hfp Hnd Hb Hi Hend Hlt Hin. pose proof Hal as (Hx & Hy & _).
  destruct (batch_processing_lookup factor_processing x_values y_values
              groups group_label batch risk_exp pre_process post_process
              i start end_ Hal Hfp Hnd Hb Hi Hend)
    as (b & e & Hrun & Hspec & _ & _ & Hpx & Hpy).
  destruct Hspec as (_ & _ & (risk & ne_x & _ & _ & Hlx & Hex & Hey)).
  assert (end_ ∈ select (predict_index start end_ group_label) group_label)
    as Hsub.
  { rewrite select_predict_index. apply elem_of_rows_labelled.
    split; [done|lia]. }
  assert (∀ ne : list row,
            length ne
              = length (select (predict_index start end_ group_label)
                          group_label) →
            select (label_is end_
                      (select (predict_index start end_ group_label)
                         group_label)) ne ≠ []) as Hne.
  { intros ne Hlen. rewrite select_label_is.
    by apply (rows_labelled_nonempty _ _ _ end_). }
  destruct (entry_predict_y e) as [py|] eqn:Ey.
  - destruct Hey as (_ & ne_y & _ & Hly & ->).
    rewrite Hex in Hpx. eexists b, _, _.
    split; [done|]. split; [exact Hpx|]. split; [by apply Hne|].
    split; [exact Hpy|by apply Hne].
  - exfalso. rewrite select_predict_index in Hey.
    apply (rows_labelled_nonempty _ _ _ end_) in Hey; [done..|lia].
Qed.

(** X14: the counterpart of the omitted predict target bucket. Under
    the preconditions, for a window from [start] to a later date [end_],
    when at least one row of the panel is labelled [end_] the predict
    feature bucket and the predict target bucket under [end_] are both
    stored and both non-empty. *)
Theorem predict_buckets_nonempty (i : nat) (start end_ : Z) :
  aligned x_values y_values group_label risk_exp →
  preserves_rows factor_processing pre_process post_process →
  NoDup groups → 1 <= batch →
  groups !! i = Some start →
  groups !! (i + Z.to_nat batch)%nat = Some end_ →
  start < end_ → end_ ∈ group_label →
  ∃ b px py,
    batch_processing factor_processing x_values y_values groups group_label
      batch risk_exp pre_process post_process = Ok b ∧
    predict_x_buckets b !! end_ = Some px ∧ px ≠ [] ∧
    predict_y_buckets b !! end_ = Some py ∧ py ≠ [].
Proof. apply predict_buckets_nonempty_at. Qed.
End batch_nonempty.

(** * Further properties of the orchestrator *)

Section pipeline_success.
Context {Universe Factors process : Type}.
Variable makeSchedule : string → string → string → result (list Z).
Variable advanceDateByCalendar : string → string → string → result string.
Variable new_Transformer : Factors → Transformer.
Variable factor_processing :
  list (list cell) → process → option (list (list cell)) → process →
  result (list (list cell)).

Variable engine : SqlEngine Universe.
Variable alpha_factors : Factors.
Variables (start_date end_date frequency : string).
Variable universe : Universe.
Variables (benchmark warm_start batch : Z).
Variable risk_model : string.
Variables (pre_process post_process : process).
Variable dates0 : list Z.
Variable return_df : frame cell.
Variable factor_df : frame Feature.t.

Hypothesis prepared :
  prepare_data makeSchedule advanceDateByCalendar new_Transformer engine
    (inl (new_Transformer alpha_factors)) start_date end_date frequency
    universe benchmark warm_start
  = Ok (dates0, return_df, factor_df).

Lemma no_risk_aligned :
  aligned (risk_row := list cell) (no_risk_x_values factor_df)
    (no_risk_y_values return_df) (date_labels factor_df) None.
Proof.
  destruct (prepare_data_panel_frame _ _ _ _ _ _ _ _ _ _ _ _ _ _ prepared)
    as (_ & _ & f & r & i & b & _ & _ & _ & _ & _ & -> & ->).
  unfold no_risk_x_values, no_risk_y_values, date_labels.
  repeat split; try done; by rewrite !length_fmap.
Qed.

(** The call with an empty list of risk names, up to the batching. *)
Lemma fetch_data_package_no_risk_run :
  fetch_data_package makeSchedule advanceDateByCalendar new_Transformer
    factor_processing engine alpha_factors start_date end_date frequency
    universe benchmark warm_start batch (Some []) risk_model pre_process
    post_process
  = match batch_processing factor_processing (no_risk_x_values factor_df)
            (no_risk_y_values return_df)
            (np_unique (date_labels factor_df)) (date_labels factor_df)
            batch None pre_process post_process with
    | Raise e =>
        (["Starting data package fetching ..."; "Loading data is finished"],
         Raise e)
    | Ok b =>
        (["Starting data package fetching ..."; "Loading data is finished";
          "Data processing is finished"],
         Ok {| x_names := names (new_Transformer alpha_factors);
               settlement :=
                 settle return_df ((λ r, (r.1, (r.2, []))) <$> factor_df);
               train := (train_x_buckets b, train_y_buckets b);
               predict := (predict_x_buckets b, predict_y_buckets b) |})
    end.
Proof.
  unfold fetch_data_package, load_package. rewrite prepared.
  cbn [mbind result_bind load_arrays truthy for_enumerate x_values y_values
       risk_exp train_x].
  unfold no_risk_x_values, no_risk_y_values, date_labels.
  rewrite <- list_fmap_compose. reflexivity.
Qed.

Hypothesis processing_preserves_rows :
  preserves_rows factor_processing pre_process post_process.
Hypothesis batch_positive : 1 <= batch.

(** X15: with an empty list of risk names (the working way to ask for no
    risk model), once [prepare_data] has returned and with a
    preprocessing that keeps the rows, [fetch_data_package] returns a
    package after its three log lines: the factor names are those of the
    transformer, the settlement frame has the keys of the target frame,
    and the train and predict feature dictionaries are keyed by the
    distinct trade dates of the feature frame, in increasing order,
    without the first [batch] of them. *)
Theorem fetch_data_package_no_risk :
  ∃ pkg,
    fetch_data_package makeSchedule advanceDateByCalendar new_Transformer
      factor_processing engine alpha_factors start_date end_date frequency
      universe benchmark warm_start batch (Some []) risk_model pre_process
      post_process
    = (["Starting data package fetching ..."; "Loading data is finished";
        "Data processing is finished"], Ok pkg) ∧
    x_names pkg = names (new_Transformer alpha_factors) ∧
    (settlement pkg).*1 = return_df.*1 ∧
    dom (train pkg).1
      = list_to_set (drop (Z.to_nat batch)
                       (np_unique (date_labels factor_df))) ∧
    dom (train pkg).2 = dom (train pkg).1 ∧
    dom (predict pkg).1 = dom (train pkg).1.
Proof.
  destruct (batch_processing_dom factor_processing
              (no_risk_x_values factor_df) (no_risk_y_values return_df)
              (np_unique (date_labels factor_df)) (date_labels factor_df)
              batch None pre_process post_process no_risk_aligned
              processing_preserves_rows batch_positive)
    as (b & Hrun & Htx & Hty & Hpx & _).
  eexists. rewrite fetch_data_package_no_risk_run, Hrun.
  split; [reflexivity|]. cbn [x_names settlement train predict fst snd].
  split; [done|]. split; [|by rewrite Htx, Hty, Hpx].
  unfold settle. rewrite fmap_imap. unfold compose. cbn [fst].
  clear. induction return_df as [|r l IH] using rev_ind; [done|].
  rewrite imap_app, fmap_app, IH. done.
Qed.


(** X17: the settlement frame of that package is the target frame with
    the columns of the feature frame put beside it row by row: row [i]
    has the key and the forward return of target row [i] and the weight,
    industry and tradability flag of feature row [i], which has the same
    key; it has no risk column. *)
Theorem fetch_data_package_settlement :
  ∃ pkg,
    fetch_data_package makeSchedule advanceDateByCalendar new_Transformer
      factor_processing engine alpha_factors start_date end_date frequency
      universe benchmark warm_start batch (Some []) risk_model pre_process
      post_process
    = (["Starting data package fetching ..."; "Loading data is finished";
        "Data processing is finished"], Ok pkg) ∧
    length (settlement pkg) = length return_df ∧
    ∀ i k dx,
      return_df !! i = Some (k, dx) →
      ∃ f,
        factor_df !! i = Some (k, f) ∧
        settlement pkg !! i
          = Some (k, Settlement.make dx (Feature.weight f)
                       (Feature.industry f) (Feature.industry_code f)
                       (Feature.isOpen f) []).
Proof.
  destruct (batch_processing_dom factor_processing
              (no_risk_x_values factor_df) (no_risk_y_values return_df)
              (np_unique (date_labels factor_df)) (date_labels factor_df)
              batch None pre_process post_process no_risk_aligned
              processing_preserves_rows batch_positive)
    as (b & Hrun & _).
  eexists. rewrite fetch_data_package_no_risk_run, Hrun.
  split; [reflexivity|]. cbn [settlement]. unfold settle.
  split; [by rewrite length_imap|].
  intros i k dx Hi.
  destruct (prepare_data_panel_frame _ _ _ _ _ _ _ _ _ _ _ _ _ _ prepared)
    as (_ & _ & fd & rd & ind & bd & _ & _ & _ & _ & _ & Hret & Hfac).
  set (pf := panel_frame (sort_values fd) rd ind bd) in *.
  assert (return_df !! i = target_row <$> pf !! i) as Hri
    by (rewrite Hret; apply list_lookup_fmap).
  assert (factor_df !! i = feature_row <$> pf !! i) as Hfi
    by (rewrite Hfac; apply list_lookup_fmap).
  rewrite Hri in Hi.
  destruct (pf !! i) as [[k' p]|] eqn:Ep; [|done].
  injection Hi as <- <-.
  exists (feature_row (k', p)).2. split; [by rewrite Hfi|].
  etrans; [apply list_lookup_imap|]. unfold frame in *. rewrite Hri.
  cbn [fmap option_fmap option_map].
  assert (((λ r : key * Feature.t, (r.1, (r.2, @nil (string * cell))))
             <$> factor_df) !! i
          = Some (k', ((feature_row (k', p)).2, [])))
    as -> by (by rewrite list_lookup_fmap, Hfi).
  done.
Qed.
End pipeline_success.

Section pipeline_risk.
Context {Universe Factors process : Type}.
Variable makeSchedule : string → string → string → result (list Z).
Variable advanceDateByCalendar : string → string → string → result string.
Variable new_Transformer : Factors → Transformer.
Variable factor_processing :
  list (list cell) → process → option (list (list cell)) → process →
  result (list (list cell)).

(** The label vector and the schedule come from the feature frame of
    [prepare_data], the feature array from [train_x]. *)
Lemma load_package_shapes (engine : SqlEngine Universe)
    (alpha_factors : Factors) (start_date end_date frequency : string)
    (universe : Universe) (benchmark warm_start : Z)
    (neutralized_risk : option (list string)) (risk_model : string)
    (dates0 : list Z) (return_df : frame cell) (factor_df : frame Feature.t)
    (transformer : Transformer) (settled : frame Settlement.t)
    (arrays : loaded) (dates date_label : list Z) :
  prepare_data makeSchedule advanceDateByCalendar new_Transformer engine
    (inl (new_Transformer alpha_factors)) start_date end_date frequency
    universe benchmark warm_start
  = Ok (dates0, return_df, factor_df) →
  load_package makeSchedule advanceDateByCalendar new_Transformer engine
    alpha_factors start_date end_date frequency universe benchmark
    warm_start neutralized_risk risk_model
  = Ok (transformer, settled, arrays, dates, date_label) →
  date_label = date_labels factor_df ∧
  dates = np_unique (date_labels factor_df) ∧
  length (x_values arrays) = length (train_x arrays).
Proof.
  intros Hprep. unfold load_package. rewrite Hprep.
  cbn [mbind result_bind].
  destruct (load_arrays _ _ _ _ _ _ _ _) as [[return_df' arrays']|] eqn:El;
    [|done].
  cbn [mbind result_bind].
  destruct (match neutralized_risk with None => _ | Some _ => _ end);
    [|done].
  cbn [mbind result_bind]. intros [= <- <- <- <- <-].
  split; [done|]. split; [done|].
  unfold load_arrays in El. destruct (truthy neutralized_risk).
  - destruct (fetch_risk_model_range _ _ _ _); [|done].
    cbn [mbind result_bind] in El.
    destruct (mapM _ _); [|done]. cbn [mbind result_bind] in El.
    destruct (mapM _ _); [|done]. cbn [mbind result_bind] in El.
    injection El as <- <-. cbn. by rewrite length_fmap.
  - injection El as <- <-. cbn. by rewrite length_fmap.
Qed.

(** X18: the label vector is taken from the feature frame before the
    risk merge. When the merge with the risk panel changes the number of
    rows (an instrument without risk exposures is dropped) and the
    schedule has at least one window, [fetch_data_package] does not
    return: after the second log line it ends in numpy's [IndexError] for
    a boolean mask of the wrong length. *)
Theorem fetch_data_package_risk_misaligned (engine : SqlEngine Universe)
    (alpha_factors : Factors) (start_date end_date frequency : string)
    (universe : Universe) (benchmark warm_start batch : Z)
    (neutralized_risk : option (list string)) (risk_model : string)
    (pre_process post_process : process)
    (dates0 : list Z) (return_df : frame cell) (factor_df : frame Feature.t)
    (transformer : Transformer) (settled : frame Settlement.t)
    (arrays : loaded) (dates date_label : list Z) :
  prepare_data makeSchedule advanceDateByCalendar new_Transformer engine
    (inl (new_Transformer alpha_factors)) start_date end_date frequency
    universe benchmark warm_start
  = Ok (dates0, return_df, factor_df) →
  load_package makeSchedule advanceDateByCalendar new_Transformer engine
    alpha_factors start_date end_date frequency universe benchmark
    warm_start neutralized_risk risk_model
  = Ok (transformer, settled, arrays, dates, date_label) →
  length (train_x arrays) ≠ length factor_df →
  1 <= batch < Z.of_nat (length (np_unique (date_labels factor_df))) →
  fetch_data_package makeSchedule advanceDateByCalendar new_Transformer
    factor_processing engine alpha_factors start_date end_date frequency
    universe benchmark warm_start batch neutralized_risk risk_model
    pre_process post_process
  = (["Starting data package fetching ..."; "Loading data is finished"],
     Raise (IndexError "boolean index did not match indexed array")).
Proof.
  intros Hprep Hload Hlen Hb.
  destruct (load_package_shapes _ _ _ _ _ _ _ _ _ _ _ _ _ _ _ _ _ _
              Hprep Hload) as (-> & -> & Hx).
  unfold fetch_data_package. rewrite Hload.
  rewrite misaligned_raises; [done| |done].
  intros (Hxl & _). unfold date_labels in Hxl.
  rewrite length_fmap in Hxl. congruence.
Qed.
End pipeline_risk.

(** ** Instances on the scenario *)

Lemma scenario_prepared :
  prepare_data Scenario.makeSchedule Scenario.advanceDateByCalendar
    Scenario.new_Transformer Scenario.engine
    (inl (Scenario.new_Transformer ())) "2012-01-01" "2012-04-01" "1m" ()
    905 0
  = Ok ([1; 2], scenario_target, scenario_features).
Proof. reflexivity. Qed.

Lemma scenario_processing_preserves_rows :
  preserves_rows Scenario.factor_processing () ().
Proof. intros raw risk. by exists raw. Qed.

Lemma prepare_data_rows_witness :
  ((1, 600001) ∉ scenario_target.*1) ∧
  ((1, 600001) ∉ scenario_features.*1) ∧
  ((2, 600001), Num 0.03) ∈ scenario_target ∧
  ((2, 600001),
   Feature.make (Num 0) (Some true) (Some 2) (Some "steel") [Num 1.7])
    ∈ scenario_features ∧
  ((1, 600000),
   Feature.make (Num 0.25) (Some true) (Some 1) (Some "bank") [Num 0.5])
    ∈ scenario_features.
Proof.
  destruct (prepare_data_rows Scenario.makeSchedule
              Scenario.advanceDateByCalendar Scenario.new_Transformer
              Scenario.engine (inl (Scenario.new_Transformer ()))
              "2012-01-01" "2012-04-01" "1m" () 905 0 [1; 2]
              scenario_target scenario_features scenario_prepared)
    as (tr & h & f & r & i & b & _ & [= <-] & [= <-] & [= <-] & [= <-] &
        Hdrop & Hkeep & _ & _).
  destruct (Hdrop (1, 600001)) as [Ht Hx].
  { apply (bool_decide_unpack ((1, 600001) ∈ Scenario.factor_panel.*1)).
    by vm_compute. }
  { apply (bool_decide_unpack ((1, 600001) ∉ Scenario.return_panel.*1)).
    by vm_compute. }
  split; [exact Ht|]. split; [exact Hx|].
  destruct (Hkeep (2, 600001) (Factor.make (Some true) [Num 1.7])
              (Num 0.03) (Industry.make (Some 2) (Some "steel")))
    as [Habsent _];
    try reflexivity;
    try (unfold Scenario.factor_panel, Scenario.return_panel,
           Scenario.industry_panel; rewrite !elem_of_cons; tauto).
  destruct Habsent as [Hdx Hft].
  { apply (bool_decide_unpack ((2, 600001) ∉ Scenario.benchmark_panel.*1)).
    by vm_compute. }
  split; [exact Hdx|]. split; [exact Hft|].
  destruct (Hkeep (1, 600000) (Factor.make (Some true) [Num 0.5])
              (Num 0.01) (Industry.make (Some 1) (Some "bank")))
    as [_ Hpresent];
    try reflexivity;
    try (unfold Scenario.factor_panel, Scenario.return_panel,
           Scenario.industry_panel; rewrite !elem_of_cons; tauto).
  apply (Hpresent (Num 0.25)).
  unfold Scenario.benchmark_panel. rewrite !elem_of_cons. tauto.
Defined.

Lemma prepare_data_aligned_witness :
  scenario_target.*1 = scenario_features.*1 ∧
  length scenario_target = length scenario_features.
Proof.
  exact (prepare_data_aligned Scenario.makeSchedule
           Scenario.advanceDateByCalendar Scenario.new_Transformer
           Scenario.engine (inl (Scenario.new_Transformer ()))
           "2012-01-01" "2012-04-01" "1m" () 905 0 [1; 2] scenario_target
           scenario_features scenario_prepared).
Defined.

Lemma prepare_data_complete_witness :
  (∀ k dx, (k, dx) ∈ scenario_target → dx ≠ NaN) ∧
  (∀ k f, (k, f) ∈ scenario_features →
     Feature.isOpen f ≠ None ∧ Forall (λ c, c ≠ NaN) (Feature.factors f)).
Proof.
  exact (prepare_data_complete Scenario.makeSchedule
           Scenario.advanceDateByCalendar Scenario.new_Transformer
           Scenario.engine (inl (Scenario.new_Transformer ()))
           "2012-01-01" "2012-04-01" "1m" () 905 0 [1; 2] scenario_target
           scenario_features scenario_prepared).
Defined.

Lemma prepare_data_keys_witness :
  (2, 600001) ∈ scenario_features.*1 ∧ (1, 600001) ∉ scenario_features.*1.
Proof.
  destruct (prepare_data_keys Scenario.makeSchedule
              Scenario.advanceDateByCalendar Scenario.new_Transformer
              Scenario.engine (inl (Scenario.new_Transformer ()))
              "2012-01-01" "2012-04-01" "1m" () 905 0 [1; 2]
              scenario_target scenario_features scenario_prepared)
    as (tr & h & f & r & i & _ & [= <-] & [= <-] & [= <-] & Hkeys).
  split.
  - apply Hkeys.
    exists (Factor.make (Some true) [Num 1.7]), (Num 0.03),
      (Industry.make (Some 2) (Some "steel")).
    repeat split; try reflexivity;
      unfold Scenario.factor_panel, Scenario.return_panel,
        Scenario.industry_panel; rewrite !elem_of_cons; tauto.
  - intros (f & dx & ind & _ & _ & Hdx & _)%Hkeys.
    unfold Scenario.return_panel in Hdx.
    rewrite !elem_of_cons, elem_of_nil in Hdx.
    destruct Hdx as [[=]|[[=]|[[=]|[]]]].
Defined.

Lemma prepare_data_sorted_witness :
  StronglySorted key_le scenario_features.*1 ∧
  StronglySorted Z.le (trade_date <$> scenario_features.*1).
Proof.
  exact (prepare_data_sorted Scenario.makeSchedule
           Scenario.advanceDateByCalendar Scenario.new_Transformer
           Scenario.engine (inl (Scenario.new_Transformer ()))
           "2012-01-01" "2012-04-01" "1m" () 905 0 [1; 2] scenario_target
           scenario_features scenario_prepared).
Defined.

Lemma prepare_data_unique_keys_witness :
  NoDup scenario_target.*1 ∧ NoDup scenario_features.*1.
Proof.
  destruct (prepare_data_unique_keys Scenario.makeSchedule
              Scenario.advanceDateByCalendar Scenario.new_Transformer
              Scenario.engine (inl (Scenario.new_Transformer ()))
              "2012-01-01" "2012-04-01" "1m" () 905 0 [1; 2]
              scenario_target scenario_features scenario_prepared)
    as (tr & h & f & r & i & b & _ & [= <-] & [= <-] & [= <-] & [= <-] & H).
  apply H.
  - apply (bool_decide_unpack (NoDup Scenario.factor_panel.*1)).
    by vm_compute.
  - apply (bool_decide_unpack (NoDup Scenario.return_panel.*1)).
    by vm_compute.
  - apply (bool_decide_unpack (NoDup Scenario.industry_panel.*1)).
    by vm_compute.
  - apply (bool_decide_unpack (NoDup Scenario.benchmark_panel.*1)).
    by vm_compute.
Defined.

Lemma fetch_data_package_bad_frequency_witness :
  fetch_data_package Scenario.makeSchedule Scenario.advanceDateByCalendar
    Scenario.new_Transformer Scenario.factor_processing Scenario.engine
    () "2012-01-01" "2012-04-01" "1y" () 905 0 1 (Some []) "short" () ()
  = (["Starting data package fetching ..."],
     Raise (ValueError "1y is an unrecognized frequency rule")).
Proof.
  apply (fetch_data_package_bad_frequency Scenario.makeSchedule
           Scenario.advanceDateByCalendar Scenario.new_Transformer
           Scenario.factor_processing Scenario.engine () "2012-01-01"
           "2012-04-01" "1y" () 905 0 1 (Some []) "short" () () [1; 2]
           (Period.make Years 1)).
  - lia.
  - reflexivity.
  - reflexivity.
  - unfold recognized. cbn. intros [|[|[|]]]; discriminate.
Defined.

Lemma predict_buckets_nonempty_witness :
  ∃ b px py,
    Scenario.run Scenario.features Scenario.targets Scenario.dates
      Scenario.dates 1 = Ok b ∧
    predict_x_buckets b !! 3 = Some px ∧ px ≠ [] ∧
    predict_y_buckets b !! 3 = Some py ∧ py ≠ [].
Proof.
  apply (predict_buckets_nonempty identity_processing Scenario.features
           Scenario.targets Scenario.dates Scenario.dates 1 None () ()
           1%nat 2 3).
  - by apply aligned_no_risk.
  - apply identity_preserves_rows.
  - apply NoDup_scenario_dates.
  - lia.
  - reflexivity.
  - reflexivity.
  - lia.
  - unfold Scenario.dates. rewrite !elem_of_cons. tauto.
Defined.

Lemma fetch_data_package_no_risk_witness :
  ∃ pkg,
    fetch_data_package Scenario.makeSchedule Scenario.advanceDateByCalendar
      Scenario.new_Transformer Scenario.factor_processing Scenario.engine
      () "2012-01-01" "2012-04-01" "1m" () 905 0 1 (Some []) "short" () ()
    = (["Starting data package fetching ..."; "Loading data is finished";
        "Data processing is finished"], Ok pkg) ∧
    x_names pkg = ["EPS"] ∧
    dom (train pkg).1 = {[2]}.
Proof.
  destruct (fetch_data_package_no_risk Scenario.makeSchedule
              Scenario.advanceDateByCalendar Scenario.new_Transformer
              Scenario.factor_processing Scenario.engine () "2012-01-01"
              "2012-04-01" "1m" () 905 0 1 "short" () () [1; 2]
              scenario_target scenario_features scenario_prepared
              scenario_processing_preserves_rows)
    as (pkg & Hrun & Hnames & _ & Hdom & _); [lia|].
  exists pkg. split; [exact Hrun|]. split; [exact Hnames|].
  rewrite Hdom. by vm_compute.
Defined.


Lemma fetch_data_package_settlement_witness :
  ∃ pkg,
    fetch_data_package Scenario.makeSchedule Scenario.advanceDateByCalendar
      Scenario.new_Transformer Scenario.factor_processing Scenario.engine
      () "2012-01-01" "2012-04-01" "1m" () 905 0 1 (Some []) "short" () ()
    = (["Starting data package fetching ..."; "Loading data is finished";
        "Data processing is finished"], Ok pkg) ∧
    settlement pkg !! 2%nat
      = Some ((2, 600001),
              Settlement.make (Num 0.03) (Num 0) (Some "steel") (Some 2)
                (Some true) []).
Proof.
  destruct (fetch_data_package_settlement Scenario.makeSchedule
              Scenario.advanceDateByCalendar Scenario.new_Transformer
              Scenario.factor_processing Scenario.engine () "2012-01-01"
              "2012-04-01" "1m" () 905 0 1 "short" () () [1; 2]
              scenario_target scenario_features scenario_prepared
              scenario_processing_preserves_rows)
    as (pkg & Hrun & _ & Hrows); [lia|].
  exists pkg. split; [exact Hrun|].
  destruct (Hrows 2%nat (2, 600001) (Num 0.03)) as (f & Hf & Hs);
    [reflexivity|].
  injection Hf as <-. exact Hs.
Defined.

Example risk_scenario_loaded :
  ∃ transformer settled arrays dates date_label,
    load_package Scenario.makeSchedule Scenario.advanceDateByCalendar
      Scenario.new_Transformer RiskScenario.engine () "2012-01-01"
      "2012-04-01" "1m" () 905 0 (Some ["SIZE"]) "short"
    = Ok (transformer, settled, arrays, dates, date_label) ∧
    length (train_x arrays) = 2%nat ∧ length date_label = 3%nat.
Proof. eexists _, _, _, _, _. split; [reflexivity|]. by vm_compute. Qed.

Lemma fetch_data_package_risk_misaligned_witness :
  fetch_data_package Scenario.makeSchedule Scenario.advanceDateByCalendar
    Scenario.new_Transformer Scenario.factor_processing RiskScenario.engine
    () "2012-01-01" "2012-04-01" "1m" () 905 0 1 (Some ["SIZE"]) "short"
    () ()
  = (["Starting data package fetching ..."; "Loading data is finished"],
     Raise (IndexError "boolean index did not match indexed array")).
Proof.
  eapply (fetch_data_package_risk_misaligned Scenario.makeSchedule
            Scenario.advanceDateByCalendar Scenario.new_Transformer
            Scenario.factor_processing RiskScenario.engine () "2012-01-01"
            "2012-04-01" "1m" () 905 0 1 (Some ["SIZE"]) "short" () ()
            [1; 2] scenario_target scenario_features).
  - reflexivity.
  - reflexivity.
  - by vm_compute.
  - by vm_compute.
Defined.

(** * Further properties of the frequency parser *)

Lemma map_horizon_frequency_string (n : N) (u : TimeUnits) :
  _map_horizon (frequency_string n u)
  = horizon_of_period (frequency_string n u) (Period.make u (Z.of_N n)).
Proof. unfold _map_horizon. by rewrite Period_parse_frequency_string. Qed.

(** X19: the fixed conversion of weeks and months into trading days. A
    frequency of [n] weeks has the horizon of [5 n] business days, a
    frequency of [n] months that of [22 n] business days, and calendar
    days count as business days. *)
Theorem map_horizon_in_days (n : N) :
  _map_horizon (frequency_string n Weeks)
    = _map_horizon (frequency_string (5 * n) BDays) ∧
  _map_horizon (frequency_string n Months)
    = _map_horizon (frequency_string (22 * n) BDays) ∧
  _map_horizon (frequency_string n Days)
    = _map_horizon (frequency_string n BDays).
Proof.
  rewrite !map_horizon_frequency_string. unfold horizon_of_period. cbn.
  repeat split; f_equal; lia.
Qed.

(** X20: for a recognized unit the horizon of the frequency built from
    the count [n] is never below -1, and it is negative exactly for the
    count 0: a period of length zero is accepted and gives the horizon
    -1. *)
Theorem map_horizon_sign (n : N) (u : TimeUnits) :
  recognized u →
  ∃ h,
    _map_horizon (frequency_string n u) = Ok h ∧
    -1 <= h ∧ (h < 0 ↔ n = 0%N).
Proof.
  intros Hu. rewrite map_horizon_frequency_string.
  unfold horizon_of_period. cbn.
  destruct Hu as [-> | [-> | [-> | ->]]]; cbn;
    eexists; (split; [reflexivity|lia]).
Qed.

Lemma map_horizon_sign_witness :
  ∃ h, _map_horizon "0w" = Ok h ∧ -1 <= h ∧ (h < 0 ↔ 0%N = 0%N).
Proof.
  apply (map_horizon_sign 0 Weeks). unfold recognized. tauto.
Defined.
